(* ===== verification/_CoqProject ===== *)
-Q . S2P
Prelude.v
Format.v
Dates.v
Catalog.v
Ephemeris.v
PyObj.v
Geometry.v
Telemetry.v
Run.v
Heap.v
