(* ===== verification/Prelude.v ===== *)
(** * ClipperWatch: a verification development of src/clipperwatch.py

    ClipperWatch is a single Python script that draws a top-down snapshot
    of the inner solar system with one tracked spacecraft.  [main] parses
    the command line, selects the tracked body ([FindTargetSpacecraft] or
    [GetRandomSpacecraft]), and calls [Plot].  [Plot] draws every planet
    and the tracked spacecraft ([PlotTargets]), the spacecraft's path since
    launch ([PlotSpacecraftTail]) and a status bar ([PlotTitleLegendStatusBar]),
    then saves or shows the figure ([PrintOrSave]).  Every body's data
    comes from JPL Horizons through [GetAstroData], which stores it into
    the body's dict and turns any failure into ["JPL Get error: ..."] and
    [exit(1)].

    Files (in dependency order) and what they model:
    - Prelude.v (this file): the notation scope [cw_scope], the [result]
      type, the state and exception monad [st] with its laws, the
      invariant rule [preserves] with the tactic [preserves_step], the
      hint database [cw], and the tactic [vm_eq].
    - Format.v: [str(int)], zero padding and [format(x, ".Nf")] (the
      [.5f] and [.3f] fields, lines 341 and 350).  A float is its exact
      rational value, rounded half-to-even as CPython's
      [float.__format__] rounds it.
    - Dates.v: CPython's [datetime.date] as the script uses it.  That is
      [_ymd2ord] inside [date - date] (line 355) and [isoformat()] for
      the query epochs (lines 164-165).
    - Catalog.v: [targets] (lines 10-104), [MapNameToJplId]
      (107-135), and the searches of [FindTargetSpacecraft] (141-146) and
      [GetRandomSpacecraft] (148-156).  It uses stdpp's [gmap].
    - Ephemeris.v: the rows and elements the script reads from
      astroquery's [Horizons], and the class [EphemerisProvider] of its
      two requests.  The network is not modelled; every theorem about a
      run holds for every instance.
    - PyObj.v: Python's dicts ([gmap string pyval]), [d[k]] with its
      [KeyError], and the dict literals of [targets].
    - Geometry.v: the Coordinate Projector (lines 232-236), the Orbit
      Path Reconstructor (251-277) and the Trajectory Builder (309-326),
      over the reals, array by array as numpy computes them.
    - Telemetry.v: [GetDistSpeedFrom], [GetSignalDelay],
      [GetMissionDays] (332-356) and the status f-string (369-378).
    - Run.v: the whole script as a computation of the monad over a
      [world].  The world holds the heap of body dicts, the global
      [targetSpacecraft] as an alias (the position of the dict in the
      heap), and the output log: prints, provider requests, scene
      commands and the final [savefig]/[show].  It models [GetAstroData],
      the plotting functions, [ListSpacecraft] and [main].
    - Heap.v: the invariant of the heap and of [targetSpacecraft], its
      preservation by every operation, and its consequences.

    Theorems, by group:
    - complete runs (Run.v).  With a provider that answers every request,
      tracking a spacecraft completes, with exactly the expected sequence
      of requests.  Naming a planet fails with exit 1 after
      ["JPL Get error: 'launch_date'"].  A random draw tracks the
      spacecraft it selects.  An unknown name exits 1, and [--list]
      exits 0, before any request.
    - no degraded output (Run.v): for every provider, the figure is
      written exactly when the run completes.
    - the heap invariant (Heap.v): every dict keeps its catalog fields,
      only gains keys of the expected kinds, and [targetSpacecraft] stays
      in range.  Hence [obj != targetSpacecraft], a value comparison,
      behaves as an identity test.
    - selection (Catalog.v): the name search returns the first match,
      and the random pick is a bijection between draws and spacecraft.
    - geometry (Geometry.v): the projector reads longitudes in degrees
      counterclockwise from the x axis, at distance [|dist|]; the orbit is
      a closed 360-point polyline; each of its points satisfies the
      focus-directrix equation of a conic with the Sun at its focus; the
      polyline starts at the perihelion; the trajectory is the samples'
      projections, in order.
    - telemetry (Telemetry.v): the motion label's sign convention, the
      printed signal delay within 0.5 ms of the light time, the
      mission-day count, and KeyError on missing context.  Their proofs
      rest on lemmas about Python's own library as the script uses it:
      correct rounding of [.Nf] (Format.v), and the date arithmetic and
      [isoformat] round trip (Dates.v).

    Numbers.  Python floats are modelled by their exact values: ephemeris
    fields are [Q], and geometry is computed in [R] from them with [Q2R].
    The last-ulp rounding of IEEE-754 arithmetic is therefore not
    modelled, and the formatting theorems hold of the exact value.
    Python ints are [Z], which is unbounded as they are.

    Fuel and evaluation.  [str(int)] recurses on a fuel of
    [1 + log2 n] digits, which is at least the number of decimal digits
    of [n] ([digits_fuel_enough]).  No other definition needs fuel: the
    script's loops run over finite lists.  The complete-run theorems are
    proved by evaluating [main] with the provider's answers left
    symbolic ([total_provider f g]), once per catalog entry.

    Not modelled:
    - argparse's reading of [sys.argv]: [main] takes the parsed namespace
      as a record [Args]; the defaults of the [add_argument] calls are
      [default_args];
    - the random star field [PlotStars]: one scene command with the axis
      limits, since no other code reads the stars;
    - matplotlib rendering: only the commands and the data they receive;
    - the network behind the provider, which is the class above;
    - the value of [random.randrange] and [date.today()], which are
      inputs. *)

From Stdlib Require Import List String ZArith Lia.
Import ListNotations.

Declare Scope cw_scope.
Delimit Scope cw_scope with cw.
Create HintDb cw.
Create Rewrite HintDb cw.

(** ** Results: Python code that either returns or raises *)

Inductive result (E A : Type) : Type :=
| Ok (a : A)
| Err (e : E).
Arguments Ok {E A} a.
Arguments Err {E A} e.

Definition rbind {E A B} (c : result E A) (f : A -> result E B) : result E B :=
  match c with
  | Ok a => f a
  | Err e => Err e
  end.

Notation "'let?' x := c 'in' k" := (rbind c (fun x => k))
  (at level 10, x name, c at level 100, k at level 200) : cw_scope.

(** ** The state and exception monad of the script's global state *)

Definition st (S E A : Type) : Type := S -> result E A * S.

Definition sret {S E A} (a : A) : st S E A := fun s => (Ok a, s).

Definition sbind {S E A B} (c : st S E A) (f : A -> st S E B) : st S E B :=
  fun s =>
    match c s with
    | (Ok a, s') => f a s'
    | (Err e, s') => (Err e, s')
    end.

Definition sthrow {S E A} (e : E) : st S E A := fun s => (Err e, s).
Definition sget {S E} : st S E S := fun s => (Ok s, s).
Definition sput {S E} (s : S) : st S E unit := fun _ => (Ok tt, s).
Definition smodify {S E} (f : S -> S) : st S E unit := fun s => (Ok tt, f s).

(** [try c except h]: the handler sees the error and the state reached. *)
Definition scatch {S E A} (c : st S E A) (h : E -> st S E A) : st S E A :=
  fun s =>
    match c s with
    | (Ok a, s') => (Ok a, s')
    | (Err e, s') => h e s'
    end.

(** A Python [for] loop over a list whose body may raise. *)
Fixpoint sfor {S E A} (l : list A) (body : A -> st S E unit) : st S E unit :=
  match l with
  | [] => sret tt
  | x :: l' => sbind (body x) (fun _ => sfor l' body)
  end.

Notation "x <- c ;; k" := (sbind c (fun x => k))
  (at level 100, c at next level, k at level 200, right associativity) : cw_scope.
Notation "c ;; k" := (sbind c (fun _ => k))
  (at level 100, k at level 200, right associativity) : cw_scope.

Local Open Scope cw_scope.

(** ** Laws of the monads *)

Lemma rbind_Ok {E A B} (a : A) (f : A -> result E B) : rbind (Ok a) f = f a.
Proof. reflexivity. Qed.

Lemma rbind_Err {E A B} (e : E) (f : A -> result E B) : rbind (Err e) f = Err e.
Proof. reflexivity. Qed.

Lemma rbind_eq_Ok {E A B} (c : result E A) (f : A -> result E B) b :
  rbind c f = Ok b -> exists a, c = Ok a /\ f a = Ok b.
Proof. destruct c; simpl; [eauto | discriminate]. Qed.

Section MonadLaws.
Context {S E : Type}.

Lemma sbind_ret_l {A B} (a : A) (f : A -> st S E B) s :
  sbind (sret a) f s = f a s.
Proof. reflexivity. Qed.

Lemma sbind_ret_r {A} (c : st S E A) s : sbind c sret s = c s.
Proof. unfold sbind. destruct (c s) as [[a|e] s']; reflexivity. Qed.

Lemma sbind_assoc {A B C} (c : st S E A) (f : A -> st S E B) (g : B -> st S E C) s :
  sbind (sbind c f) g s = sbind c (fun x => sbind (f x) g) s.
Proof. unfold sbind. destruct (c s) as [[a|e] s']; reflexivity. Qed.

Lemma sbind_Ok {A B} (c : st S E A) (f : A -> st S E B) s a s' :
  c s = (Ok a, s') -> sbind c f s = f a s'.
Proof. unfold sbind. intros ->. reflexivity. Qed.

Lemma sbind_Err {A B} (c : st S E A) (f : A -> st S E B) s e s' :
  c s = (Err e, s') -> sbind c f s = (Err e, s').
Proof. unfold sbind. intros ->. reflexivity. Qed.

Lemma sbind_throw {A B} (e : E) (f : A -> st S E B) s :
  sbind (sthrow e) f s = (Err e, s).
Proof. reflexivity. Qed.

Lemma sbind_ext {A B} (c : st S E A) (f g : A -> st S E B) s :
  (forall a s', f a s' = g a s') -> sbind c f s = sbind c g s.
Proof. intros Hfg. unfold sbind. destruct (c s) as [[a|e] s']; auto. Qed.

Lemma sfor_app {A} (l1 l2 : list A) (body : A -> st S E unit) s :
  sfor (l1 ++ l2) body s = sbind (sfor l1 body) (fun _ => sfor l2 body) s.
Proof.
  revert s. induction l1 as [|x l1 IH]; intros s; simpl.
  - reflexivity.
  - rewrite sbind_assoc. apply sbind_ext. intros _ s'. apply IH.
Qed.

(** A predicate on states that a computation preserves, whether it
    returns or raises: the loop-invariant rule of the development. *)
Definition preserves {A} (I : S -> Prop) (c : st S E A) : Prop :=
  forall s, I s -> I (snd (c s)).

Lemma preserves_ret {A} I (a : A) : preserves I (sret a).
Proof. intros s Hs. exact Hs. Qed.

Lemma preserves_throw {A} I (e : E) : preserves I (@sthrow S E A e).
Proof. intros s Hs. exact Hs. Qed.

Lemma preserves_bind {A B} I (c : st S E A) (f : A -> st S E B) :
  preserves I c -> (forall a, preserves I (f a)) -> preserves I (sbind c f).
Proof.
  intros Hc Hf s Hs. unfold sbind. specialize (Hc s Hs).
  destruct (c s) as [[a|e] s'] eqn:E1; simpl in *; [apply Hf|]; exact Hc.
Qed.

Lemma preserves_catch {A} I (c : st S E A) (h : E -> st S E A) :
  preserves I c -> (forall e, preserves I (h e)) -> preserves I (scatch c h).
Proof.
  intros Hc Hh s Hs. unfold scatch. specialize (Hc s Hs).
  destruct (c s) as [[a|e] s'] eqn:E1; simpl in *; [|apply Hh]; exact Hc.
Qed.

Lemma preserves_for {A} I (l : list A) (body : A -> st S E unit) :
  (forall x, In x l -> preserves I (body x)) -> preserves I (sfor l body).
Proof.
  induction l as [|x l IH]; intros Hb; simpl.
  - apply preserves_ret.
  - apply preserves_bind; [apply Hb; left; reflexivity|].
    intros _. apply IH. intros y Hy. apply Hb. right. exact Hy.
Qed.

Lemma preserves_modify {I : S -> Prop} (f : S -> S) :
  (forall s, I s -> I (f s)) -> preserves I (@smodify S E f).
Proof. intros Hf s Hs. apply Hf, Hs. Qed.

Lemma preserves_get (I : S -> Prop) : preserves I (@sget S E).
Proof. intros s Hs. exact Hs. Qed.
End MonadLaws.

#[export] Hint Rewrite @rbind_Ok @rbind_Err @sbind_ret_l @sbind_throw : cw.
#[export] Hint Resolve preserves_ret preserves_throw preserves_bind
  preserves_catch preserves_for : cw.

(** [preserves_step]: one step of the invariant rule through a program
    built from the monad's combinators, [if], [match] and [let]. *)
Ltac preserves_step :=
  match goal with
  | |- preserves _ (sbind _ _) => apply preserves_bind; [|intros ?]
  | |- preserves _ (scatch _ _) => apply preserves_catch; [|intros ?]
  | |- preserves _ (sfor _ _) => apply preserves_for; intros ? ?
  | |- preserves _ (sret _) => apply preserves_ret
  | |- preserves _ (sthrow _) => apply preserves_throw
  | |- preserves _ sget => apply preserves_get
  | |- preserves _ (let _ := _ in _) => cbv zeta
  | |- preserves _ (if ?b then _ else _) => destruct b
  | |- preserves _ (match ?x with _ => _ end) => destruct x
  end.

(** [cw_simp]: unfold the monad plumbing and the rewrite base. *)
Ltac cw_simp := repeat (autorewrite with cw in *; simpl in *).

(** Close an equation between two closed computations by comparing their
    values in the virtual machine, without reading the normal forms back
    (those of the symbolic provider answers are large). *)
Ltac vm_eq := match goal with |- ?a = ?b => exact (@eq_refl _ a <: a = b) end.
