(* ===== verification/Format.v ===== *)
(** * Format: Python's number-to-text conversions used by the script

    - [show_int]: [str(n)] for a Python int (the mission day count).
    - [pad_zeros]: the zero padding of ["%02d"] and ["%04d"] (used by
      [date.isoformat] in Dates.v).
    - [format_fixed]: [format(x, ".Nf")], which every telemetry line of
      src/clipperwatch.py uses (lines 341 and 350).  The float is taken at
      its exact rational value.  CPython rounds that value correctly,
      half to even, to N decimals, and keeps a minus sign for every
      negative value.

    A reader of the printed text is modelled by [parse_nat] and
    [parse_fixed].  The theorems here are about these conversions:
    - the printed text reads back as the number printed (round trips);
    - rounding is off by at most half a unit in the last printed place;
    - the fraction has exactly N digits. *)

From Stdlib Require Import List String Ascii ZArith QArith Qround Qabs Qfield Lia Lqa.
From S2P Require Import Prelude.
Import ListNotations.
Local Open Scope Z_scope.
Local Open Scope string_scope.

(** ** Decimal digits *)

Definition digit (k : Z) : ascii := ascii_of_nat (48 + Z.to_nat k).

Definition is_digit (c : ascii) : bool :=
  (48 <=? nat_of_ascii c)%nat && (nat_of_ascii c <=? 57)%nat.

Definition digit_val (c : ascii) : Z := Z.of_nat (nat_of_ascii c) - 48.

(** [str(n)] for [n >= 0]: the digits of [n], most significant first.
    [fuel] bounds the number of digits; [digits_fuel] gives enough
    (a number has no more decimal digits than binary ones). *)
Fixpoint digits_aux (fuel : nat) (n : Z) (acc : string) : string :=
  match fuel with
  | O => acc
  | S f =>
      if (n <? 10)%Z then String (digit n) acc
      else digits_aux f (n / 10) (String (digit (n mod 10)) acc)
  end.

Definition digits_fuel (n : Z) : nat := S (Z.to_nat (Z.log2 n)).

Definition show_nat (n : Z) : string := digits_aux (digits_fuel n) n "".

(** [str(n)] for any Python int. *)
Definition show_int (n : Z) : string :=
  if (n <? 0)%Z then "-" ++ show_nat (- n) else show_nat n.

(** Zero padding to width [w], as ["%0wd"] does for a non-negative int. *)
Fixpoint zeros (k : nat) : string :=
  match k with
  | O => ""
  | S k' => String "0" (zeros k')
  end.

Definition pad_zeros (w : nat) (s : string) : string :=
  zeros (w - String.length s) ++ s.

(** ** Reading digits back *)

Fixpoint parse_digits_aux (s : string) (acc : Z) : option Z :=
  match s with
  | EmptyString => Some acc
  | String c s' =>
      if is_digit c then parse_digits_aux s' (acc * 10 + digit_val c) else None
  end.

Definition parse_nat (s : string) : option Z :=
  match s with
  | EmptyString => None
  | _ => parse_digits_aux s 0
  end.

(** ** Fixed-point formatting of a float, [format(x, ".Nf")] *)

(** Round half to even, the rounding of CPython's float formatting. *)
Definition round_half_even (x : Q) : Z :=
  let n := Qfloor x in
  match Qcompare (x - inject_Z n) (1 # 2) with
  | Lt => n
  | Gt => n + 1
  | Eq => if Z.even n then n else n + 1
  end.

Definition pow10 (prec : nat) : Z := 10 ^ Z.of_nat prec.

Definition format_fixed (prec : nat) (x : Q) : string :=
  let sign := if Qle_bool 0 x then "" else "-" in
  let m := round_half_even (Qabs x * inject_Z (pow10 prec)) in
  let ip := m / pow10 prec in
  let fp := m mod pow10 prec in
  sign ++ show_nat ip
       ++ (match prec with
           | O => ""
           | S _ => "." ++ pad_zeros prec (show_nat fp)
           end).

Definition parse_int (s : string) : option Z :=
  match s with
  | EmptyString => None
  | String c s' =>
      if ascii_dec c "-" then option_map Z.opp (parse_nat s') else parse_nat s
  end.

Fixpoint all_digits (s : string) : bool :=
  match s with
  | EmptyString => true
  | String c s' => is_digit c && all_digits s'
  end.

(** [s.partition(sep)]: the text before the first [sep] and after it. *)
Fixpoint split_at (sep : ascii) (s : string) : option (string * string) :=
  match s with
  | EmptyString => None
  | String c s' =>
      if ascii_dec c sep then Some (EmptyString, s')
      else match split_at sep s' with
           | Some (a, b) => Some (String c a, b)
           | None => None
           end
  end.

(** Reading [format(x, ".Nf")] back: sign, integer digits, and the
    fraction digits, whose count gives the scale. *)

Definition parse_unsigned_fixed (s : string) : option Q :=
  match split_at "." s with
  | Some (ip, fp) =>
      match parse_nat ip, parse_nat fp with
      | Some i, Some f =>
          Some (inject_Z i + inject_Z f / inject_Z (pow10 (String.length fp)))%Q
      | _, _ => None
      end
  | None => option_map inject_Z (parse_nat s)
  end.

Definition parse_fixed (s : string) : option Q :=
  match s with
  | EmptyString => None
  | String c s' =>
      if ascii_dec c "-" then option_map Qopp (parse_unsigned_fixed s')
      else parse_unsigned_fixed s
  end.

Example format_fixed_speed : format_fixed 5 (5 # 2) = "2.50000".
Proof. reflexivity. Qed.

Example format_fixed_tie_even : format_fixed 0 (5 # 2) = "2".
Proof. reflexivity. Qed.

Example format_fixed_negative_zero : format_fixed 5 (- 1 # 1000000) = "-0.00000".
Proof. reflexivity. Qed.

Example show_int_negative : show_int (-305) = "-305".
Proof. reflexivity. Qed.

(** ** Digits: generic lemmas *)

Lemma string_length_app (s1 s2 : string) :
  String.length (s1 ++ s2) = (String.length s1 + String.length s2)%nat.
Proof. induction s1 as [|c s1 IH]; simpl; [reflexivity | now rewrite IH]. Qed.

Lemma string_app_assoc (s1 s2 s3 : string) : ((s1 ++ s2) ++ s3)%string = (s1 ++ (s2 ++ s3))%string.
Proof. induction s1 as [|c s1 IH]; cbn; [reflexivity | now rewrite IH]. Qed.

Lemma digit_spec (k : Z) :
  0 <= k < 10 -> is_digit (digit k) = true /\ digit_val (digit k) = k.
Proof.
  intros Hk.
  assert (k = 0 \/ k = 1 \/ k = 2 \/ k = 3 \/ k = 4 \/ k = 5 \/ k = 6
          \/ k = 7 \/ k = 8 \/ k = 9) as Hc by lia.
  repeat destruct Hc as [-> | Hc]; subst; split; reflexivity.
Qed.

Lemma pow10_pos (k : Z) : 0 <= k -> 0 < 10 ^ k.
Proof. intros Hk. apply Z.pow_pos_nonneg; lia. Qed.

(** Printing [n] before [acc] and reading the whole back from [v] reads
    [acc] from [v] shifted by the digits of [n], plus [n]. *)
Lemma parse_digits_aux_cons (c : ascii) (s : string) (v : Z) :
  parse_digits_aux (String c s) v =
  if is_digit c then parse_digits_aux s (v * 10 + digit_val c) else None.
Proof. reflexivity. Qed.

Lemma parse_digits_aux_digit (k : Z) (s : string) (v : Z) :
  0 <= k < 10 -> parse_digits_aux (String (digit k) s) v = parse_digits_aux s (v * 10 + k).
Proof.
  intros Hk. destruct (digit_spec k Hk) as [Hd Hv].
  rewrite parse_digits_aux_cons, Hd, Hv. reflexivity.
Qed.

Lemma parse_digits_aux_digits (f : nat) (n : Z) (acc : string) (v : Z) :
  0 <= n < 10 ^ Z.of_nat f ->
  exists k, 0 <= k /\
    parse_digits_aux (digits_aux f n acc) v = parse_digits_aux acc (v * 10 ^ k + n).
Proof.
  revert n acc v. induction f as [|f IH]; intros n acc v Hn; cbn [digits_aux].
  - exists 0. split; [lia|]. rewrite Z.pow_0_r in *. f_equal; lia.
  - destruct (Z.ltb_spec n 10) as [Hlt|Hge].
    + exists 1. split; [lia|]. rewrite parse_digits_aux_digit by lia. f_equal; lia.
    + rewrite Nat2Z.inj_succ, Z.pow_succ_r in Hn by lia.
      destruct (IH (n / 10) (String (digit (n mod 10)) acc) v) as [k [Hk ->]].
      { split; [apply Z.div_pos; lia | apply Z.div_lt_upper_bound; lia]. }
      exists (k + 1). split; [lia|].
      rewrite parse_digits_aux_digit by (apply Z.mod_pos_bound; lia). f_equal.
      rewrite Z.pow_add_r by lia. pose proof (Z.div_mod n 10). lia.
Qed.

Lemma digits_fuel_enough (n : Z) : 0 <= n -> n < 10 ^ Z.of_nat (digits_fuel n).
Proof.
  intros Hn. unfold digits_fuel. rewrite Nat2Z.inj_succ, Z2Nat.id by apply Z.log2_nonneg.
  destruct (Z.eq_dec n 0) as [->|Hn0]; [reflexivity|].
  destruct (Z.log2_spec n) as [_ Hup]; [lia|].
  eapply Z.lt_le_trans; [exact Hup|]. apply Z.pow_le_mono_l. lia.
Qed.

Lemma digits_aux_nonempty (f : nat) (n : Z) (acc : string) :
  acc <> EmptyString -> digits_aux f n acc <> EmptyString.
Proof.
  revert n acc. induction f as [|f IH]; intros n acc Hacc; cbn [digits_aux]; [exact Hacc|].
  destruct (n <? 10)%Z; [discriminate | apply IH; discriminate].
Qed.

Lemma show_nat_nonempty (n : Z) : show_nat n <> EmptyString.
Proof.
  unfold show_nat, digits_fuel. cbn [digits_aux].
  destruct (n <? 10)%Z; [discriminate | apply digits_aux_nonempty; discriminate].
Qed.

(** A number of at most [p] digits prints in at most [p] characters. *)
Lemma digits_aux_length (f : nat) (n : Z) (acc : string) (p : Z) :
  1 <= p -> 0 <= n < 10 ^ p ->
  Z.of_nat (String.length (digits_aux f n acc)) <= p + Z.of_nat (String.length acc).
Proof.
  revert n acc p. induction f as [|f IH]; intros n acc p Hp Hn; cbn [digits_aux]; [lia|].
  destruct (Z.ltb_spec n 10) as [Hlt|Hge]; cbn [String.length]; [lia|].
  assert (2 <= p).
  { destruct (Z.eq_dec p 1) as [->|]; [rewrite Z.pow_1_r in Hn; lia | lia]. }
  specialize (IH (n / 10) (String (digit (n mod 10)) acc) (p - 1)).
  cbn [String.length] in IH. enough (0 <= n / 10 < 10 ^ (p - 1)) by (specialize (IH ltac:(lia) H0); lia).
  split; [apply Z.div_pos; lia|]. apply Z.div_lt_upper_bound; [lia|].
  rewrite <- Z.pow_succ_r by lia. now replace (Z.succ (p - 1)) with p by lia.
Qed.

Lemma parse_nat_nonempty (s : string) :
  s <> EmptyString -> parse_nat s = parse_digits_aux s 0.
Proof. destruct s; [contradiction | reflexivity]. Qed.

Lemma digits_aux_all_digits (f : nat) (n : Z) (acc : string) :
  0 <= n -> all_digits acc = true -> all_digits (digits_aux f n acc) = true.
Proof.
  revert n acc. induction f as [|f IH]; intros n acc Hn Hacc; cbn [digits_aux]; [exact Hacc|].
  destruct (Z.ltb_spec n 10).
  - cbn [all_digits]. rewrite (proj1 (digit_spec n ltac:(lia))). exact Hacc.
  - apply IH; [apply Z.div_pos; lia|]. cbn [all_digits].
    rewrite (proj1 (digit_spec (n mod 10) ltac:(apply Z.mod_pos_bound; lia))). exact Hacc.
Qed.

Lemma show_nat_all_digits (n : Z) : 0 <= n -> all_digits (show_nat n) = true.
Proof. intros Hn. apply digits_aux_all_digits; [exact Hn | reflexivity]. Qed.

(** A string of digits never starts with the minus sign. *)
Lemma digits_not_minus (s : string) :
  all_digits s = true -> s <> EmptyString ->
  exists c s', s = String c s' /\ c <> "-"%char.
Proof.
  destruct s as [|c s']; [contradiction|]. cbn [all_digits].
  intros H _. exists c, s'. split; [reflexivity|]. intros ->. discriminate H.
Qed.

(** [str(n)] of a non-negative int reads back as [n]. *)
Lemma parse_show_nat (n : Z) : 0 <= n -> parse_nat (show_nat n) = Some n.
Proof.
  intros Hn. rewrite parse_nat_nonempty by apply show_nat_nonempty. unfold show_nat.
  destruct (parse_digits_aux_digits (digits_fuel n) n "" 0) as [k [_ ->]].
  - split; [exact Hn | apply digits_fuel_enough, Hn].
  - cbn. reflexivity.
Qed.

Lemma parse_show_int (n : Z) : parse_int (show_int n) = Some n.
Proof.
  unfold show_int. destruct (Z.ltb_spec n 0) as [Hneg|Hpos].
  - cbn [String.append parse_int]. destruct (ascii_dec "-" "-") as [_|]; [|contradiction].
    rewrite parse_show_nat by lia. cbn. f_equal. lia.
  - destruct (digits_not_minus (show_nat n)) as [c [s' [Es Hc]]];
      [apply show_nat_all_digits; lia | apply show_nat_nonempty|].
    rewrite Es. cbn [parse_int]. destruct (ascii_dec c "-") as [|_]; [contradiction|].
    rewrite <- Es. apply parse_show_nat. lia.
Qed.

(** ** Fixed-point formatting *)

Local Open Scope Q_scope.

Lemma zeros_length (k : nat) : String.length (zeros k) = k.
Proof. induction k as [|k IH]; cbn; [reflexivity | now rewrite IH]. Qed.

Lemma pad_zeros_length (w : nat) (s : string) :
  (String.length s <= w)%nat -> String.length (pad_zeros w s) = w.
Proof. intros H. unfold pad_zeros. rewrite string_length_app, zeros_length. lia. Qed.

Lemma parse_digits_aux_zeros (k : nat) (s : string) :
  parse_digits_aux (zeros k ++ s) 0 = parse_digits_aux s 0.
Proof. induction k as [|k IH]; [reflexivity|]. exact IH. Qed.

Lemma string_app_nil_r (s : string) : (s ++ "")%string = s.
Proof. induction s as [|c s IH]; cbn; [reflexivity | now rewrite IH]. Qed.

Lemma split_at_digits (sep : ascii) (a b : string) :
  is_digit sep = false -> all_digits a = true ->
  split_at sep (a ++ String sep b) = Some (a, b).
Proof.
  intros Hsep. induction a as [|c a IH]; cbn [all_digits String.append split_at].
  - intros _. destruct (ascii_dec sep sep) as [_|]; [reflexivity | contradiction].
  - intros [Hc Ha]%andb_prop. destruct (ascii_dec c sep) as [->|_]; [congruence|].
    now rewrite IH.
Qed.

Lemma split_at_none (sep : ascii) (a : string) :
  is_digit sep = false -> all_digits a = true -> split_at sep a = None.
Proof.
  intros Hsep. induction a as [|c a IH]; cbn [all_digits split_at]; [reflexivity|].
  intros [Hc Ha]%andb_prop. destruct (ascii_dec c sep) as [->|_]; [congruence|].
  now rewrite IH.
Qed.

Lemma all_digits_app (a b : string) :
  all_digits a = true -> all_digits b = true -> all_digits (a ++ b) = true.
Proof.
  induction a as [|c a IH]; cbn [all_digits String.append]; [auto|].
  intros [Hc Ha]%andb_prop Hb. rewrite Hc. now apply IH.
Qed.

Lemma all_digits_pad (w : nat) (n : Z) :
  (0 <= n)%Z -> all_digits (pad_zeros w (show_nat n)) = true.
Proof.
  intros Hn. unfold pad_zeros. apply all_digits_app; [|now apply show_nat_all_digits].
  induction (w - String.length (show_nat n))%nat as [|k IH]; [reflexivity | exact IH].
Qed.

Lemma inject_Z_succ (n : Z) : inject_Z (n + 1) == inject_Z n + 1.
Proof. rewrite inject_Z_plus. reflexivity. Qed.

(** Round half to even is off by at most one half. *)
Lemma round_half_even_spec (x : Q) :
  Qabs (inject_Z (round_half_even x) - x) <= 1 # 2.
Proof.
  unfold round_half_even. set (n := Qfloor x).
  pose proof (Qfloor_le x) as Hlo. pose proof (Qlt_floor x) as Hhi. fold n in Hlo, Hhi.
  rewrite inject_Z_succ in Hhi. apply Qabs_Qle_condition.
  destruct (Qcompare_spec (x - inject_Z n) (1 # 2)) as [Heq|Hlt|Hgt].
  - destruct (Z.even n); [|rewrite inject_Z_succ]; split; lra.
  - split; lra.
  - rewrite inject_Z_succ. split; lra.
Qed.

Lemma round_half_even_nonneg (x : Q) : 0 <= x -> (0 <= round_half_even x)%Z.
Proof.
  intros Hx. assert (0 <= Qfloor x)%Z as Hf.
  { pose proof (Qlt_floor x) as Hhi.
    assert (0 < Qfloor x + 1)%Z by (rewrite Zlt_Qlt; change (inject_Z 0) with 0; lra). lia. }
  unfold round_half_even.
  destruct (Qcompare _ _); [destruct (Z.even _)|..]; lia.
Qed.

Lemma pow10_nonzero (prec : nat) : ~ inject_Z (pow10 prec) == 0.
Proof.
  pose proof (pow10_pos (Z.of_nat prec) ltac:(lia)) as H. unfold pow10.
  intros E. unfold Qeq in E. cbn [Qnum Qden inject_Z] in E. lia.
Qed.

Lemma parse_pad_show (w : nat) (n : Z) :
  (0 <= n)%Z -> parse_nat (pad_zeros w (show_nat n)) = Some n.
Proof.
  intros Hn. unfold pad_zeros. rewrite parse_nat_nonempty.
  - rewrite parse_digits_aux_zeros, <- parse_nat_nonempty by apply show_nat_nonempty.
    now apply parse_show_nat.
  - destruct (w - String.length (show_nat n))%nat; cbn; [apply show_nat_nonempty | discriminate].
Qed.

(** The digits after the sign read back as [m / 10^prec]. *)
Lemma parse_unsigned_fixed_body (prec : nat) (m : Z) : (0 <= m)%Z ->
  exists u,
    parse_unsigned_fixed
      (show_nat (m / pow10 prec)
         ++ match prec with
            | O => ""
            | S _ => "." ++ pad_zeros prec (show_nat (m mod pow10 prec))
            end) = Some u
    /\ u * inject_Z (pow10 prec) == inject_Z m.
Proof.
  intros Hm. pose proof (pow10_pos (Z.of_nat prec) ltac:(lia)) as HP. unfold pow10 in *.
  set (P := (10 ^ Z.of_nat prec)%Z) in *.
  assert (0 <= m / P)%Z as Hq by (apply Z.div_pos; lia).
  pose proof (Z.mod_pos_bound m P HP) as Hr.
  destruct prec as [|p].
  - subst P. cbn [Z.of_nat Z.pow] in *. rewrite Z.div_1_r, string_app_nil_r.
    unfold parse_unsigned_fixed. rewrite split_at_none by (reflexivity || now apply show_nat_all_digits).
    rewrite parse_show_nat by exact Hm. eexists. split; [reflexivity|]. cbn. ring.
  - cbn [String.append]. unfold parse_unsigned_fixed.
    rewrite split_at_digits by (reflexivity || now apply show_nat_all_digits).
    rewrite parse_show_nat by exact Hq.
    assert (Z.of_nat (String.length (show_nat (m mod P))) <= Z.of_nat (S p))%Z as Hlen.
    { unfold show_nat. pose proof (digits_aux_length (digits_fuel (m mod P)) (m mod P) ""
        (Z.of_nat (S p)) ltac:(lia) ltac:(lia)). cbn [String.length] in *. lia. }
    rewrite parse_pad_show by lia. rewrite pad_zeros_length by lia. fold P.
    eexists. split; [reflexivity|].
    assert (~ inject_Z P == 0) as HP0 by (apply (pow10_nonzero (S p))).
    replace (inject_Z m) with (inject_Z (P * (m / P) + m mod P))
      by (f_equal; symmetry; apply Z.div_mod; lia).
    rewrite inject_Z_plus, inject_Z_mult. unfold pow10. fold P. field. exact HP0.
Qed.

Lemma parse_fixed_digits (s t : string) :
  all_digits s = true -> s <> EmptyString ->
  parse_fixed (s ++ t) = parse_unsigned_fixed (s ++ t).
Proof.
  destruct s as [|c s]; [contradiction|]. cbn [all_digits String.append parse_fixed].
  intros Hc _. destruct (ascii_dec c "-") as [->|_]; [discriminate Hc | reflexivity].
Qed.

Lemma parse_fixed_minus (t : string) :
  parse_fixed ("-" ++ t) = option_map Qopp (parse_unsigned_fixed t).
Proof. cbn. destruct (ascii_dec "-" "-") as [_|]; [reflexivity | contradiction]. Qed.

Lemma format_fixed_close (prec : nat) (x : Q) :
  exists v, parse_fixed (format_fixed prec x) = Some v /\
            Qabs (v - x) <= (1 # 2) / inject_Z (pow10 prec).
Proof.
  unfold format_fixed.
  assert (0 < pow10 prec)%Z as HP by (apply pow10_pos; lia).
  assert (0 < inject_Z (pow10 prec)) as HPq
    by (rewrite <- (Zlt_Qlt 0); exact HP).
  set (a := Qabs x * inject_Z (pow10 prec)).
  set (m := round_half_even a).
  assert (Hm : (0 <= m)%Z).
  { apply round_half_even_nonneg. apply Qmult_le_0_compat; [apply Qabs_nonneg | lra]. }
  destruct (parse_unsigned_fixed_body prec m Hm) as [u [Hu HuP]].
  assert (Hb : Qabs (u - Qabs x) <= (1 # 2) / inject_Z (pow10 prec)).
  { apply Qle_shift_div_l; [exact HPq|].
    rewrite <- (Qabs_pos (inject_Z (pow10 prec))) at 1 by lra.
    rewrite <- Qabs_Qmult.
    setoid_replace ((u - Qabs x) * inject_Z (pow10 prec)) with (inject_Z m - a)
      by (unfold a; rewrite <- HuP; ring).
    apply round_half_even_spec. }
  destruct (Qle_bool 0 x) eqn:Hs.
  - apply Qle_bool_iff in Hs. cbn [String.append].
    rewrite parse_fixed_digits;
      [| apply show_nat_all_digits, Z.div_pos; lia | apply show_nat_nonempty].
    exists u. split; [exact Hu|]. setoid_replace (Qabs x) with x in Hb by (apply Qabs_pos; exact Hs). exact Hb.
  - assert (x < 0) as Hneg.
    { apply Qnot_le_lt. intros H. apply Qle_bool_iff in H. congruence. }
    rewrite parse_fixed_minus, Hu. exists (- u). split; [reflexivity|].
    setoid_replace (Qabs x) with (- x) in Hb by (apply Qabs_neg; lra).
    setoid_replace (- u - x) with (- (u - - x)) by ring. rewrite Qabs_opp. exact Hb.
Qed.

(** A number below [10^p] has at most [p] digits. *)
Lemma show_nat_length_le (n : Z) (p : nat) :
  (1 <= p)%nat -> (0 <= n < pow10 p)%Z -> (String.length (show_nat n) <= p)%nat.
Proof.
  intros Hp Hn. unfold show_nat.
  pose proof (digits_aux_length (digits_fuel n) n "" (Z.of_nat p) ltac:(lia) Hn) as H.
  cbn [String.length] in H. lia.
Qed.

(** [format(x, ".Nf")] is a correctly rounded decimal: the printed
    text reads back as a value within half a unit of the last printed
    place of [x], whatever the sign of [x]; and it has Python's shape: a
    minus sign exactly when [x < 0], a non-empty run of integer digits,
    and, when [N > 0], a point followed by exactly [N] digits. *)
Lemma format_fixed_roundtrip (prec : nat) (x : Q) :
  (exists v, parse_fixed (format_fixed prec x) = Some v /\
             Qabs (v - x) <= (1 # 2) / inject_Z (pow10 prec)) /\
  (exists ip fp, format_fixed prec x = ((if Qle_bool 0 x then "" else "-") ++ ip ++ fp)%string /\
     all_digits ip = true /\ ip <> EmptyString /\
     match prec with
     | O => fp = EmptyString
     | S _ => exists ds, fp = String "." ds /\ String.length ds = prec /\ all_digits ds = true
     end).
Proof.
  split; [apply format_fixed_close|].
  assert (0 < pow10 prec)%Z as HP by (apply pow10_pos; lia).
  assert (Hm : (0 <= round_half_even (Qabs x * inject_Z (pow10 prec)))%Z).
  { apply round_half_even_nonneg, Qmult_le_0_compat; [apply Qabs_nonneg|].
    rewrite <- (Zle_Qle 0). lia. }
  unfold format_fixed. set (m := round_half_even (Qabs x * inject_Z (pow10 prec))) in *.
  eexists (show_nat (m / pow10 prec)), _. split; [reflexivity|].
  split; [apply show_nat_all_digits, Z.div_pos; lia|]. split; [apply show_nat_nonempty|].
  pose proof (Z.mod_pos_bound m (pow10 prec) HP).
  destruct prec as [|p]; [reflexivity|]. eexists; split; [reflexivity|]. split.
  - apply pad_zeros_length, show_nat_length_le; lia.
  - apply all_digits_pad. lia.
Qed.
