(* ===== verification/Dates.v ===== *)
(** * Dates: the [datetime.date] arithmetic the script relies on

    src/clipperwatch.py uses [date] in three places:
    - the catalog's launch dates ([date(2024, 10, 15)], ...);
    - [date.today().isoformat()] and [launch_date.isoformat()], which
      become the query epochs in [GetAstroData] (lines 164-165);
    - [(date.today() - launch_date).days] in [GetMissionDays] (line 355).

    The definitions follow CPython's pure-Python [datetime] module:
    [_is_leap], [_days_before_year], [_days_in_month],
    [_days_before_month] and [_ymd2ord].  [date.__sub__] is the
    difference of the two ordinals.  Python's [//] and [%] are [Z.div]
    and [Z.modulo] (both floor), so the formulas carry over unchanged.

    Theorems:
    - the ordinal of the next calendar day is one more;
    - so [date - date] counts calendar days;
    - [isoformat] is read back by a parser, so distinct dates give
      distinct query epochs;
    - [isoformat] always has ten characters. *)

From Stdlib Require Import List String Ascii ZArith Bool Lia.
From S2P Require Import Prelude Format.
Import ListNotations.
Local Open Scope Z_scope.
Local Open Scope bool_scope.

Record date := mkdate { year : Z; month : Z; day : Z }.

Definition MINYEAR : Z := 1.
Definition MAXYEAR : Z := 9999.

Definition _DAYS_IN_MONTH : list Z :=
  [-1; 31; 28; 31; 30; 31; 30; 31; 31; 30; 31; 30; 31].

(** [for dim in _DAYS_IN_MONTH[1:]: _DAYS_BEFORE_MONTH.append(dbm); dbm += dim] *)
Fixpoint days_before_acc (dbm : Z) (l : list Z) : list Z :=
  match l with
  | [] => []
  | dim :: l' => dbm :: days_before_acc (dbm + dim) l'
  end.

Definition _DAYS_BEFORE_MONTH : list Z := -1 :: days_before_acc 0 (tl _DAYS_IN_MONTH).

(** [lst[i]] for an index the callers' asserts keep in range. *)
Definition py_index (l : list Z) (i : Z) : Z := nth (Z.to_nat i) l 0.

Definition _is_leap (year : Z) : bool :=
  (year mod 4 =? 0) && (negb (year mod 100 =? 0) || (year mod 400 =? 0)).

Definition _days_before_year (year : Z) : Z :=
  let y := year - 1 in y * 365 + y / 4 - y / 100 + y / 400.

Definition _days_in_month (year month : Z) : Z :=
  if (month =? 2) && _is_leap year then 29 else py_index _DAYS_IN_MONTH month.

Definition _days_before_month (year month : Z) : Z :=
  py_index _DAYS_BEFORE_MONTH month + (if (month >? 2) && _is_leap year then 1 else 0).

Definition _ymd2ord (year month day : Z) : Z :=
  _days_before_year year + _days_before_month year month + day.

Definition toordinal (d : date) : Z := _ymd2ord (year d) (month d) (day d).

(** The checks of [date(year, month, day)] ([_check_date_fields]). *)
Definition valid_date (d : date) : bool :=
  (MINYEAR <=? year d) && (year d <=? MAXYEAR)
  && (1 <=? month d) && (month d <=? 12)
  && (1 <=? day d) && (day d <=? _days_in_month (year d) (month d)).

(** [(a - b).days]: [date.__sub__] subtracts the ordinals. *)
Definition date_sub_days (a b : date) : Z := toordinal a - toordinal b.

(** ["%04d-%02d-%02d" % (year, month, day)] *)
Definition isoformat (d : date) : string :=
  (pad_zeros 4 (show_nat (year d)) ++ "-" ++ pad_zeros 2 (show_nat (month d))
   ++ "-" ++ pad_zeros 2 (show_nat (day d)))%string.

(** ** Specification-side helpers (not code of the script) *)

(** The month and day fields are in range; the year is unconstrained. *)
Definition valid_md (d : date) : bool :=
  (1 <=? month d) && (month d <=? 12)
  && (1 <=? day d) && (day d <=? _days_in_month (year d) (month d)).

(** The calendar's next day. *)
Definition next_day (d : date) : date :=
  if day d <? _days_in_month (year d) (month d) then mkdate (year d) (month d) (day d + 1)
  else if month d <? 12 then mkdate (year d) (month d + 1) 1
  else mkdate (year d + 1) 1 1.

(** Reading an ISO date back ([date.fromisoformat] on this format). *)
Definition parse_isoformat (s : string) : option date :=
  match split_at "-" s with
  | Some (ys, rest) =>
      match split_at "-" rest with
      | Some (ms, ds) =>
          match parse_nat ys, parse_nat ms, parse_nat ds with
          | Some y, Some m, Some d => Some (mkdate y m d)
          | _, _, _ => None
          end
      | None => None
      end
  | None => None
  end.

Example isoformat_clipper : isoformat (mkdate 2024 10 15) = "2024-10-15"%string.
Proof. reflexivity. Qed.

Example ordinal_epoch : toordinal (mkdate 1 1 1) = 1.
Proof. reflexivity. Qed.

(** ** Calendar lemmas *)

Lemma div_pred_step (k y : Z) :
  0 < k -> y / k = (y - 1) / k + (if y mod k =? 0 then 1 else 0).
Proof.
  intros Hk. pose proof (Z.div_mod (y - 1) k ltac:(lia)) as E1.
  pose proof (Z.mod_pos_bound (y - 1) k Hk) as B1.
  destruct (Z.eq_dec ((y - 1) mod k) (k - 1)) as [Hr|Hr].
  - assert (y mod k = 0) as -> by (symmetry; apply Z.mod_unique with ((y - 1) / k + 1); lia).
    assert (y / k = (y - 1) / k + 1) as -> by (symmetry; apply Z.div_unique with 0; lia).
    reflexivity.
  - assert (y mod k = (y - 1) mod k + 1) as ->
      by (symmetry; apply Z.mod_unique with ((y - 1) / k); lia).
    assert (y / k = (y - 1) / k) as -> by (symmetry; apply Z.div_unique with ((y - 1) mod k + 1); lia).
    destruct (Z.eqb_spec ((y - 1) mod k + 1) 0); lia.
Qed.

Lemma mod_zero_divisor (y a b : Z) :
  0 < a -> 0 < b -> (a | b) -> y mod b = 0 -> y mod a = 0.
Proof.
  intros Ha Hb Hab H. apply Z.mod_divide in H; [|lia]. apply Z.mod_divide; [lia|].
  eapply Z.divide_trans; eassumption.
Qed.

(** Between January 1st of [y] and of [y + 1] lie 365 days, plus one in a
    leap year: Gregorian rule [_is_leap] matches [_days_before_year]. *)
Lemma days_before_year_succ (y : Z) :
  _days_before_year (y + 1) = _days_before_year y + 365 + (if _is_leap y then 1 else 0).
Proof.
  unfold _days_before_year, _is_leap.
  replace (y + 1 - 1) with y by lia.
  rewrite (div_pred_step 4 y), (div_pred_step 100 y), (div_pred_step 400 y) by lia.
  pose proof (mod_zero_divisor y 4 100 ltac:(lia) ltac:(lia) ltac:(exists 25; lia)).
  pose proof (mod_zero_divisor y 100 400 ltac:(lia) ltac:(lia) ltac:(exists 4; lia)).
  destruct (Z.eqb_spec (y mod 4) 0), (Z.eqb_spec (y mod 100) 0),
    (Z.eqb_spec (y mod 400) 0); cbn [andb orb negb]; lia.
Qed.

Lemma days_before_month_succ (y m : Z) :
  1 <= m <= 11 ->
  _days_before_month y (m + 1) = _days_before_month y m + _days_in_month y m.
Proof.
  intros Hm.
  assert (m = 1 \/ m = 2 \/ m = 3 \/ m = 4 \/ m = 5 \/ m = 6 \/ m = 7 \/ m = 8
          \/ m = 9 \/ m = 10 \/ m = 11) as Hc by lia.
  unfold _days_before_month, _days_in_month.
  repeat destruct Hc as [-> | Hc]; subst; destruct (_is_leap y); reflexivity.
Qed.

Lemma days_in_december (y : Z) : _days_in_month y 12 = 31.
Proof. unfold _days_in_month. destruct (_is_leap y); reflexivity. Qed.

Lemma days_before_december (y : Z) :
  _days_before_month y 12 = 334 + (if _is_leap y then 1 else 0).
Proof. unfold _days_before_month. destruct (_is_leap y); reflexivity. Qed.

Lemma days_in_month_pos (y m : Z) : 1 <= m <= 12 -> 28 <= _days_in_month y m.
Proof.
  intros Hm.
  assert (m = 1 \/ m = 2 \/ m = 3 \/ m = 4 \/ m = 5 \/ m = 6 \/ m = 7 \/ m = 8
          \/ m = 9 \/ m = 10 \/ m = 11 \/ m = 12) as Hc by lia.
  unfold _days_in_month.
  repeat destruct Hc as [-> | Hc]; subst; destruct (_is_leap y); apply Z.leb_le; reflexivity.
Qed.

Lemma days_before_january (y : Z) : _days_before_month y 1 = 0.
Proof. reflexivity. Qed.

#[export] Hint Rewrite days_in_december days_before_december days_before_january : cw.

Lemma valid_md_spec (d : date) :
  valid_md d = true <->
  1 <= month d <= 12 /\ 1 <= day d <= _days_in_month (year d) (month d).
Proof.
  unfold valid_md. rewrite !andb_true_iff, !Z.leb_le. tauto.
Qed.

(** The ordinal of the next calendar day is one more than the ordinal
    of the day, for every date whose month and day are in range. *)
Lemma toordinal_next_day (d : date) :
  valid_md d = true -> toordinal (next_day d) = toordinal d + 1.
Proof.
  intros [Hm Hd]%valid_md_spec. destruct d as [y m dd]; cbn [year month day] in *.
  unfold next_day, toordinal, _ymd2ord; cbn [year month day].
  destruct (Z.ltb_spec dd (_days_in_month y m)); cbn [year month day]; [lia|].
  destruct (Z.ltb_spec m 12); cbn [year month day].
  - rewrite days_before_month_succ by lia. lia.
  - assert (m = 12) as -> by lia. rewrite days_in_december in *.
    rewrite days_before_year_succ, days_before_december, days_before_january.
    destruct (_is_leap y); lia.
Qed.

Lemma next_day_valid_md (d : date) : valid_md d = true -> valid_md (next_day d) = true.
Proof.
  intros [Hm Hd]%valid_md_spec. apply valid_md_spec.
  destruct d as [y m dd]; cbn [year month day] in *. unfold next_day; cbn [year month day].
  destruct (Z.ltb_spec dd (_days_in_month y m)); cbn [year month day]; [lia|].
  destruct (Z.ltb_spec m 12); cbn [year month day].
  - pose proof (days_in_month_pos y (m + 1)). lia.
  - pose proof (days_in_month_pos (y + 1) 1). lia.
Qed.

Lemma iter_next_day_valid_md (n : nat) (d : date) :
  valid_md d = true -> valid_md (Nat.iter n next_day d) = true.
Proof.
  intros Hd. induction n as [|n IH]; [exact Hd|]. cbn [Nat.iter]. now apply next_day_valid_md.
Qed.

(** [n] days after [a], the ordinal has grown by [n]. *)
Lemma toordinal_iter (a : date) (n : nat) :
  valid_md a = true -> toordinal (Nat.iter n next_day a) = toordinal a + Z.of_nat n.
Proof.
  intros Ha. induction n as [|n IH]; [cbn; lia|].
  rewrite Nat.iter_succ, toordinal_next_day by now apply iter_next_day_valid_md. lia.
Qed.

(** [(b - a).days] counts calendar days: if [b] is [n] days after [a],
    the difference of the dates is [n]. *)
Lemma date_sub_days_iter (a : date) (n : nat) :
  valid_md a = true -> date_sub_days (Nat.iter n next_day a) a = Z.of_nat n.
Proof.
  intros Ha. unfold date_sub_days. rewrite toordinal_iter by exact Ha. lia.
Qed.

Lemma valid_date_spec (d : date) :
  valid_date d = true <->
  1 <= year d <= 9999 /\ 1 <= month d <= 12 /\ 1 <= day d <= _days_in_month (year d) (month d).
Proof.
  unfold valid_date, MINYEAR, MAXYEAR. rewrite !andb_true_iff, !Z.leb_le. tauto.
Qed.

Lemma days_in_month_le (y m : Z) : 1 <= m <= 12 -> _days_in_month y m <= 31.
Proof.
  intros Hm.
  assert (m = 1 \/ m = 2 \/ m = 3 \/ m = 4 \/ m = 5 \/ m = 6 \/ m = 7 \/ m = 8
          \/ m = 9 \/ m = 10 \/ m = 11 \/ m = 12) as Hc by lia.
  unfold _days_in_month.
  repeat destruct Hc as [-> | Hc]; subst; destruct (_is_leap y); apply Z.leb_le; reflexivity.
Qed.

(** [isoformat] is read back as the same date, for every date with
    non-negative fields; hence two distinct dates never give the same
    query epoch. *)
Lemma parse_isoformat_roundtrip (d : date) :
  0 <= year d -> 0 <= month d -> 0 <= day d -> parse_isoformat (isoformat d) = Some d.
Proof.
  intros Hy Hm Hd. destruct d as [y m dd]; cbn [year month day] in *.
  unfold isoformat, parse_isoformat; cbn [year month day String.append].
  rewrite !split_at_digits by (reflexivity || now apply all_digits_pad).
  rewrite !parse_pad_show by assumption. reflexivity.
Qed.

Lemma pad_show_length (w : nat) (n : Z) :
  (1 <= w)%nat -> 0 <= n < 10 ^ Z.of_nat w -> String.length (pad_zeros w (show_nat n)) = w.
Proof.
  intros Hw Hn. apply pad_zeros_length.
  pose proof (digits_aux_length (digits_fuel n) n "" (Z.of_nat w) ltac:(lia) Hn).
  unfold show_nat. cbn [String.length] in *. lia.
Qed.

(** The ISO text of a valid date has exactly ten characters. *)
Lemma isoformat_length (d : date) :
  valid_date d = true -> String.length (isoformat d) = 10%nat.
Proof.
  intros [Hy [Hm Hd]]%valid_date_spec. pose proof (days_in_month_le (year d) (month d) Hm).
  unfold isoformat. rewrite !string_length_app. cbn [String.length].
  rewrite !pad_show_length by (cbn; lia). reflexivity.
Qed.

