(* ===== verification/Catalog.v ===== *)
(** * Catalog: the body table and the name lookups (src/clipperwatch.py)

    [targets] (lines 10-104) is the script's list of body dicts.  Here it
    is a list of [target] records, one field per dict key.  A planet has
    no ["launch_date"] key, which is [None] here.  Catalog.v fixes the
    position of each dict in the list; Run.v uses that position as the
    object's identity, which [targetSpacecraft] aliases.

    - [MapNameToJplId] (lines 107-135): the dict literal [idMap] as a
      stdpp [gmap], built by inserting the pairs in order as Python does.
      A missing key is [None]; the script's [idMap[name]] raises KeyError.
    - [find_target] (lines 143-145): [next((t for t in targets if
      t["name"] == name), None)].
    - [random_pick] (lines 150-157): the loop of [GetRandomSpacecraft]
      over the spacecraft, given the draw [n = random.randrange(count)].

    Theorems:
    - the catalog is well formed: distinct names, a launch date exactly
      for the spacecraft, every name resolvable to a JPL id;
    - [find_target] finds the first entry with the name;
    - the random pick is a bijection from the draws [0 .. count-1] onto
      the spacecraft, so a uniform draw selects each spacecraft with
      equal probability. *)

From stdpp Require Import base list gmap strings.
From Stdlib Require Import ZArith.
From S2P Require Import Prelude Dates.

Record target := mktarget {
  name : string;
  color : string;
  size : Z;
  isSpacecraft : bool;
  launch_date : option date
}.

Definition planet (n c : string) (s : Z) : target := mktarget n c s false None.
Definition spacecraft (n c : string) (s : Z) (y m d : Z) : target :=
  mktarget n c s true (Some (mkdate y m d)).

Definition targets : list target := [
  planet "Mercury" "#A5A5A5" 25;
  planet "Venus" "#E3BB76" 45;
  planet "Earth" "#2271B3" 50;
  planet "Mars" "#E27B58" 40;
  planet "Jupiter" "#D39C7E" 120;
  planet "Saturn" "#C5AB6E" 100;
  spacecraft "Europa Clipper" "#E27B58" 40 2024 10 15;
  spacecraft "Lucy" "#E27B58" 40 2021 10 17;
  spacecraft "Escapade Blue" "#E27B58" 40 2025 11 14;
  spacecraft "Escapade Gold" "#E27B58" 40 2025 11 14;
  spacecraft "Parker" "#E27B58" 40 2018 8 13;
  spacecraft "Psyche" "#E27B58" 40 2023 10 14;
  spacecraft "Juice" "#E27B58" 40 2023 4 15;
  spacecraft "Osiris" "#E27B58" 40 2016 9 9;
  spacecraft "Voyager 1" "#E27B58" 40 1977 9 7;
  spacecraft "Voyager 2" "#E27B58" 40 1977 8 21;
  spacecraft "New Horizons" "#E27B58" 40 2006 1 20;
  spacecraft "Juno" "#E27B58" 40 2011 8 6
]%Z.

#[export] Instance date_eq_dec : EqDecision date.
Proof. solve_decision. Defined.

#[export] Instance target_eq_dec : EqDecision target.
Proof. solve_decision. Defined.

(** ** [MapNameToJplId] *)

(** A Python dict literal: the pairs are inserted left to right, so a
    later duplicate key would overwrite an earlier one. *)
Definition dict_literal (l : list (string * string)) : gmap string string :=
  foldl (fun m kv => <[kv.1 := kv.2]> m) ∅ l.

Definition idMap : gmap string string := dict_literal [
  ("Sun", "10"); ("Mercury", "199"); ("Venus", "299"); ("Earth", "399");
  ("Mars", "499"); ("Jupiter", "599"); ("Europa", "502"); ("Saturn", "699");
  ("Uranus", "799"); ("Neptune", "899"); ("Pluto", "999");
  ("Europa Clipper", "2024-182A"); ("Lucy", "2021-093A");
  ("Escapade Blue", "2025-260A"); ("Escapade Gold", "2025-260B");
  ("Parker", "2018-065A"); ("Juice", "2023-053A"); ("Psyche", "2023-157A");
  ("Juno", "2011-040A"); ("Osiris", "2016-055A"); ("Voyager 1", "1977-084A");
  ("Voyager 2", "1977-076A"); ("New Horizons", "2006-001A")
].

(** [idMap[name]]: [None] is the KeyError the script's lookup raises. *)
Definition MapNameToJplId (nm : string) : option string := idMap !! nm.

(** ** Selecting the tracked body *)

(** The index of the first element satisfying [p]: the identity of the
    object a Python [next(... for ... if ...)] returns. *)
Fixpoint find_index {A} (p : A -> bool) (l : list A) : option nat :=
  match l with
  | [] => None
  | x :: l' => if p x then Some 0 else S <$> find_index p l'
  end.

Definition find_target (nm : string) : option nat :=
  find_index (fun t => bool_decide (name t = nm)) targets.

(** [enumerate(...)] over a list, stopping at [i == n]. *)
Fixpoint enumerate_find {A} (i n : nat) (l : list A) : option A :=
  match l with
  | [] => None
  | x :: l' => if Nat.eqb i n then Some x else enumerate_find (S i) n l'
  end.

(** The objects of [targets] with their identities. *)
Definition indexed {A} (l : list A) : list (nat * A) := zip (seq 0 (length l)) l.

(** [(target for target in targets if target["isSpacecraft"] is True)] *)
Definition spacecraft_gen : list (nat * target) :=
  filter (fun it => isSpacecraft it.2 = true) (indexed targets).

(** [count = sum(1 for target in targets if target["isSpacecraft"] is True)] *)
Definition spacecraft_count : nat :=
  length (filter (fun t => isSpacecraft t = true) targets).

(** The loop of [GetRandomSpacecraft] for the draw [n]. *)
Definition random_pick (n : nat) : option (nat * target) :=
  enumerate_find 0 n spacecraft_gen.

(** ** Well-formedness of the catalog *)

(** The data-model invariant of a body: a launch date exactly for the
    spacecraft, and that date a valid [date]. *)
Definition target_wf (t : target) : bool :=
  match isSpacecraft t, launch_date t with
  | true, Some d => valid_date d
  | false, None => true
  | _, _ => false
  end.

Example find_target_clipper : find_target "Europa Clipper" = Some 6.
Proof. reflexivity. Qed.

Example jpl_id_europa : MapNameToJplId "Europa" = Some "502".
Proof. reflexivity. Qed.

(** ** Generic lemmas on the list searches *)

Section Searches.
Context {A : Type}.

Lemma find_index_Some (p : A -> bool) (l : list A) (i : nat) :
  find_index p l = Some i <->
  (exists x, l !! i = Some x /\ p x = true) /\
  (forall j y, (j < i)%nat -> l !! j = Some y -> p y = false).
Proof.
  revert i. induction l as [|x l IH]; intros i; cbn [find_index].
  - split; [discriminate|]. intros [[y [Hy _]] _]. discriminate Hy.
  - destruct (p x) eqn:Hp.
    + split.
      * intros [= <-]. split; [exists x; auto|]. intros j y Hj. lia.
      * intros [_ Hfirst]. destruct i as [|i]; [reflexivity|].
        specialize (Hfirst 0%nat x ltac:(lia) eq_refl). congruence.
    + destruct i as [|i].
      * split; [destruct (find_index p l); discriminate|].
        intros [[y [Hy Hpy]] _]. cbn in Hy. congruence.
      * transitivity (find_index p l = Some i).
        { destruct (find_index p l); cbn; split; intros H; congruence. }
        rewrite IH. split; intros [Hx Hfirst]; split; try exact Hx.
        -- intros [|j] y Hj Hy; [cbn in Hy; congruence|].
           apply (Hfirst j y); [lia | exact Hy].
        -- intros j y Hj Hy. apply (Hfirst (S j) y); [lia | exact Hy].
Qed.

Lemma find_index_None (p : A -> bool) (l : list A) :
  find_index p l = None <-> forall x, x ∈ l -> p x = false.
Proof.
  induction l as [|x l IH]; cbn [find_index].
  - split; [intros _ y Hy; inversion Hy | reflexivity].
  - destruct (p x) eqn:Hp.
    + split; [discriminate|]. intros H. rewrite (H x) in Hp; [discriminate | left].
    + destruct (find_index p l) eqn:Hk; cbn.
      * split; [discriminate|]. intros H. enough (Some n = None) by congruence.
        apply IH. intros y Hy. apply H. right. exact Hy.
      * split; [|reflexivity]. intros _ y Hy. apply elem_of_cons in Hy as [->|Hy]; [exact Hp|].
        apply IH; [reflexivity | exact Hy].
Qed.

Lemma find_index_ext (p q : A -> bool) (l : list A) :
  (forall x, p x = q x) -> find_index p l = find_index q l.
Proof. intros H. induction l as [|x l IH]; cbn; [reflexivity | now rewrite H, IH]. Qed.

Lemma find_index_fmap {B} (p : B -> bool) (f : A -> B) (l : list A) :
  find_index p (f <$> l) = find_index (fun x => p (f x)) l.
Proof. induction l as [|x l IH]; cbn; [reflexivity | now rewrite IH]. Qed.

Lemma enumerate_find_nth (l : list A) (i n : nat) :
  enumerate_find i (i + n) l = l !! n.
Proof.
  revert i n. induction l as [|x l IH]; intros i n; cbn [enumerate_find]; [reflexivity|].
  destruct n as [|n].
  - rewrite Nat.add_0_r, Nat.eqb_refl. reflexivity.
  - destruct (Nat.eqb_spec i (i + S n)) as [E|_]; [lia|].
    replace (i + S n)%nat with (S i + n)%nat by lia. apply IH.
Qed.
End Searches.

Section Indexed.
Context {A : Type}.

Lemma elem_of_zip_seq (k : nat) (l : list A) (i : nat) (x : A) :
  (i, x) ∈ zip (seq k (length l)) l <-> (k <= i)%nat /\ l !! (i - k)%nat = Some x.
Proof.
  revert k. induction l as [|y l IH]; intros k; cbn [length seq zip].
  - split; [intros H; inversion H | intros [_ H]; destruct (i - k)%nat; discriminate].
  - rewrite elem_of_cons, IH. split.
    + intros [[= -> ->] | [Hk Hl]]; [rewrite Nat.sub_diag; auto|].
      split; [lia|]. replace (i - k)%nat with (S (i - S k)) by lia. exact Hl.
    + intros [Hk Hl]. destruct (Nat.eq_dec i k) as [->|Hne].
      * rewrite Nat.sub_diag in Hl. cbn in Hl. left. congruence.
      * right. split; [lia|]. replace (i - k)%nat with (S (i - S k)) in Hl by lia. exact Hl.
Qed.

Lemma elem_of_indexed (l : list A) (i : nat) (x : A) :
  (i, x) ∈ indexed l <-> l !! i = Some x.
Proof. unfold indexed. rewrite elem_of_zip_seq, Nat.sub_0_r. split; [tauto | split; [lia | auto]]. Qed.

Lemma NoDup_indexed (l : list A) : NoDup (indexed l).
Proof.
  apply (NoDup_fmap_1 fst). unfold indexed. rewrite fst_zip by (rewrite length_seq; lia).
  apply NoDup_seq.
Qed.
End Indexed.

(** ** Catalog theorems *)

(** C22: every body of the catalog satisfies the data-model invariant: a
    spacecraft has a valid launch date and a planet has none. *)
Theorem catalog_wf (t : target) : t ∈ targets -> target_wf t = true.
Proof.
  assert (forallb target_wf targets = true) as H by reflexivity.
  rewrite forallb_forall in H. intros Ht. apply H. now apply list_elem_of_In.
Qed.

(** The catalog's names are pairwise distinct, so a body is determined
    by its name. *)
Lemma catalog_names_distinct : NoDup (name <$> targets).
Proof. apply (bool_decide_unpack _). vm_compute. exact I. Qed.

(** C23: every catalog body and every observer the script uses (Sun, Earth,
    Europa) has a JPL id: [MapNameToJplId] never raises KeyError on them. *)
Theorem catalog_ids_resolve (nm : string) :
  nm ∈ ["Sun"; "Earth"; "Europa"] ++ (name <$> targets) -> is_Some (MapNameToJplId nm).
Proof.
  assert (forallb (fun nm => bool_decide (is_Some (MapNameToJplId nm)))
            (["Sun"; "Earth"; "Europa"] ++ (name <$> targets)) = true) as H by reflexivity.
  rewrite forallb_forall in H. intros Hin. apply list_elem_of_In, H in Hin.
  now apply bool_decide_eq_true in Hin.
Qed.

(** A name missing from the catalog is not found. *)
Lemma find_target_None (nm : string) : nm ∉ name <$> targets -> find_target nm = None.
Proof.
  intros Hn. unfold find_target. apply find_index_None. intros t Ht.
  apply bool_decide_eq_false. intros <-. apply Hn, list_elem_of_fmap. eauto.
Qed.

(** C9: [FindTargetSpacecraft]'s search returns the position of the first
    catalog entry carrying the requested name, and [None] exactly when no
    entry has it. *)
Theorem find_target_spec (nm : string) :
  (forall i, find_target nm = Some i <->
     (exists t, targets !! i = Some t /\ name t = nm) /\
     (forall j t, (j < i)%nat -> targets !! j = Some t -> name t <> nm)) /\
  (find_target nm = None <-> nm ∉ name <$> targets).
Proof.
  split.
  - intros i. unfold find_target. rewrite find_index_Some. split.
    + intros [[t [Ht Hp]] Hf]. split; [exists t; split; [exact Ht | now apply bool_decide_eq_true in Hp]|].
      intros j t' Hj Ht' E. specialize (Hf j t' Hj Ht'). apply bool_decide_eq_false in Hf. contradiction.
    + intros [[t [Ht Hp]] Hf]. split; [exists t; split; [exact Ht | now apply bool_decide_eq_true]|].
      intros j t' Hj Ht'. apply bool_decide_eq_false. exact (Hf j t' Hj Ht').
  - unfold find_target. rewrite find_index_None, list_elem_of_fmap. split.
    + intros H [t [-> Ht]]. specialize (H t Ht). apply bool_decide_eq_false in H. contradiction.
    + intros H t Ht. apply bool_decide_eq_false. intros E. apply H. exists t. auto.
Qed.

(** The search does not check the role: a planet's name selects the
    planet as the tracked body. *)
Lemma find_target_accepts_planet :
  exists i t, find_target "Mars" = Some i /\ targets !! i = Some t /\ isSpacecraft t = false.
Proof. exists 3%nat, (planet "Mars" "#E27B58" 40). split; [|split]; reflexivity. Qed.

Lemma random_pick_lookup (n : nat) : random_pick n = spacecraft_gen !! n.
Proof. apply (enumerate_find_nth spacecraft_gen 0 n). Qed.

Lemma elem_of_spacecraft_gen (i : nat) (t : target) :
  (i, t) ∈ spacecraft_gen <-> targets !! i = Some t /\ isSpacecraft t = true.
Proof. unfold spacecraft_gen. rewrite list_elem_of_filter, elem_of_indexed. cbn. tauto. Qed.

Lemma spacecraft_count_gen : spacecraft_count = length spacecraft_gen.
Proof. reflexivity. Qed.

(** C8: the selection loop of [GetRandomSpacecraft] is a bijection from the
    draws [0 .. count-1] of [random.randrange(count)] onto the spacecraft
    of the catalog: every draw selects a spacecraft (its position and
    record), and every spacecraft is selected by exactly one draw, so a
    uniform draw selects each spacecraft with probability [1/count]. *)
Theorem random_pick_bijection :
  (forall n, (n < spacecraft_count)%nat ->
     exists i t, random_pick n = Some (i, t) /\ targets !! i = Some t /\ isSpacecraft t = true) /\
  (forall i t, targets !! i = Some t -> isSpacecraft t = true ->
     exists n, (n < spacecraft_count)%nat /\ random_pick n = Some (i, t) /\
       forall n', random_pick n' = Some (i, t) -> n' = n).
Proof.
  rewrite spacecraft_count_gen. split.
  - intros n Hn. destruct (lookup_lt_is_Some_2 spacecraft_gen n Hn) as [[i t] Hit].
    exists i, t. rewrite random_pick_lookup. split; [exact Hit|].
    apply elem_of_spacecraft_gen, list_elem_of_lookup. eauto.
  - intros i t Hi Hs. assert ((i, t) ∈ spacecraft_gen) as Hin by now apply elem_of_spacecraft_gen.
    apply list_elem_of_lookup in Hin as [n Hn]. exists n.
    split; [eapply lookup_lt_Some; eexact Hn|]. rewrite random_pick_lookup. split; [exact Hn|].
    intros n' Hn'. rewrite random_pick_lookup in Hn'.
    eapply NoDup_lookup; [|exact Hn'|exact Hn].
    apply NoDup_filter, NoDup_indexed.
Qed.

(** ** Witnesses *)

Lemma catalog_wf_witness :
  (spacecraft "Juno" "#E27B58" 40 2011 8 6)%Z ∈ targets /\
  target_wf (spacecraft "Juno" "#E27B58" 40 2011 8 6)%Z = true.
Proof.
  assert ((spacecraft "Juno" "#E27B58" 40 2011 8 6)%Z ∈ targets) as H
    by (apply (bool_decide_unpack _); vm_compute; exact I).
  split; [exact H | apply catalog_wf; exact H].
Defined.

Lemma catalog_ids_resolve_witness :
  "Voyager 2" ∈ ["Sun"; "Earth"; "Europa"] ++ (name <$> targets) /\
  is_Some (MapNameToJplId "Voyager 2").
Proof.
  assert ("Voyager 2" ∈ ["Sun"; "Earth"; "Europa"] ++ (name <$> targets)) as H
    by (apply (bool_decide_unpack _); vm_compute; exact I).
  split; [exact H | apply catalog_ids_resolve; exact H].
Defined.
