(* ===== verification/Ephemeris.v ===== *)
(** * Ephemeris: what the script reads from JPL Horizons, as an interface

    The provider is astroquery's [Horizons] class, an external
    collaborator.  src/clipperwatch.py builds one [Horizons(id=...,
    location=..., epochs=...)] object per call of [GetAstroData] (lines
    166-177).  It then makes up to two network requests on it:
    - [obj.ephemerides(quantities="18,19,20")], a table of rows (line 186);
    - [obj.elements()], the osculating elements, only for planets (line 196).

    The records below keep the columns the script reads: [targetname],
    [datetime_str], [EclLon], [r], [delta], [delta_rate] and [a], [e],
    [w], [Omega].  The class [EphemerisProvider] states the interface:
    each request either returns its table or raises, and a raise carries
    the exception's text.  Run.v is a Section over an arbitrary instance,
    so its theorems hold for every provider.  [total_provider] is the
    provider whose requests all succeed, with arbitrary tables, and
    [constant_provider] is a concrete instance, for witnesses.

    [label_of_targetname] is [eph[0]["targetname"].split("(")[0]] (line
    187).  Its theorem says it is the longest prefix without a
    parenthesis. *)

From Stdlib Require Import String Ascii List ZArith QArith.
From S2P Require Import Prelude.
Import ListNotations.

(** One row of [ephemerides(quantities="18,19,20")]: heliocentric ecliptic
    longitude and latitude (18), heliocentric range and range rate (19),
    observer range and range rate (20). *)
Record Row := mkrow {
  targetname : string;
  datetime_str : string;
  EclLon : Q;
  EclLat : Q;
  r : Q;
  r_rate : Q;
  delta : Q;
  delta_rate : Q
}.

(** One row of [elements()]: the columns [a], [e], [w], [Omega]. *)
Record Elements := mkelements {
  el_a : Q;
  el_e : Q;
  el_w : Q;
  el_Omega : Q
}.

(** The arguments of [Horizons(...)]: [id], [location], and [epochs] as
    [(start, stop, step)] when a range is requested. *)
Record Query := mkquery {
  q_id : string;
  q_location : string;
  q_epochs : option (string * string * string)
}.

Class EphemerisProvider := {
  ephemerides : Query -> result string (list Row);
  elements : Query -> result string (list Elements)
}.

(** [s.split("(")[0]]: the text before the first ["("], or all of [s]. *)
Fixpoint label_of_targetname (s : string) : string :=
  match s with
  | EmptyString => EmptyString
  | String c s' => if ascii_dec c "(" then EmptyString else String c (label_of_targetname s')
  end.

(** A provider that answers every request with the same tables. *)
Definition constant_provider (rows : list Row) (els : list Elements) : EphemerisProvider := {|
  ephemerides := fun _ => Ok rows;
  elements := fun _ => Ok els
|}.

(** A provider that answers every request: [f q] is the first row of the
    ephemerides table of [q] and the rest of the table, [g q] the same for
    the elements.  Up to extensionality, every provider whose requests all
    succeed with a non-empty table is one of these. *)
Definition total_provider (f : Query -> Row * list Row) (g : Query -> Elements * list Elements)
  : EphemerisProvider := {|
  ephemerides := fun q => Ok (fst (f q) :: snd (f q));
  elements := fun q => Ok (fst (g q) :: snd (g q))
|}.

(** A provider whose every request raises with the message [m], as when
    the service is unreachable. *)
Definition failing_provider (m : string) : EphemerisProvider := {|
  ephemerides := fun _ => Err m;
  elements := fun _ => Err m
|}.

Example label_of_clipper :
  label_of_targetname "Europa Clipper (spacecraft) (-159)" = "Europa Clipper "%string.
Proof. reflexivity. Qed.

(** ** Theorems *)

(** C24: [split("(")[0]] cuts the name at its first parenthesis: the label
    followed by the rest is the name, the label has no ["("], and the
    rest is empty or starts with ["("]. *)
Lemma label_of_targetname_spec (s : string) :
  exists rest, s = (label_of_targetname s ++ rest)%string /\
    (forall c, In c (list_ascii_of_string (label_of_targetname s)) -> c <> "("%char) /\
    (rest = EmptyString \/ exists rest', rest = String "(" rest').
Proof.
  induction s as [|c s IH]; cbn [label_of_targetname].
  - exists EmptyString. split; [reflexivity|]. split; [intros c []|left; reflexivity].
  - destruct (ascii_dec c "(") as [->|Hc].
    + exists (String "(" s). split; [reflexivity|]. split; [intros c' []|right; eauto].
    + destruct IH as [rest [Es [Hno Hrest]]]. exists rest. split; [cbn; congruence|].
      split; [|exact Hrest]. cbn. intros c' [<-|Hin]; [exact Hc | exact (Hno c' Hin)].
Qed.
