(* ===== verification/PyObj.v ===== *)
(** * PyObj: the Python objects and exceptions the script manipulates

    The bodies of [targets] are Python dicts.  [GetAstroData] adds keys to
    them ([target["targetname"] = ...], [target["eph" + observer] = ...],
    [target["ephSinceLaunch" + observer] = ...], [target["el"] = ...],
    lines 187-196).  The plotting and telemetry code reads those keys
    back, and a missing one raises [KeyError].  A dict is a stdpp
    [gmap string pyval].  [pyval] holds the kinds of values the script
    stores in one: strings, ints, bools, dates, ephemeris rows, tables
    and orbital elements.

    - [getitem] is [d[k]]: [KeyError k] when the key is absent.
    - The typed readers ([get_row], ...) also raise [TypeError] on a value
      of the wrong kind.  The script never stores one, and the invariant
      of Run.v shows it.
    - [target_dict] is the dict literal of a catalog entry (lines 11-103).
    - [exn] lists the exceptions the modelled code can raise.  [exn_str]
      is [str(e)], which [GetAstroData] prints as ["JPL Get error: {e}"]. *)

From stdpp Require Import base list gmap strings.
From Stdlib Require Import ZArith QArith.
From S2P Require Import Prelude Dates Catalog Ephemeris.
Local Open Scope cw_scope.

Inductive exn :=
| KeyError (key : string)
| IndexError (what : string)
| TypeError (what : string)
| ValueError (what : string)
| ProviderError (msg : string).

Inductive pyval :=
| VStr (s : string)
| VInt (z : Z)
| VBool (b : bool)
| VDate (d : date)
| VRow (row : Row)
| VTable (rows : list Row)
| VElems (el : Elements).

Abbreviation pydict := (gmap string pyval).

(** Python's [==] on the values the script stores: structural. *)
#[export] Instance Q_eq_dec : EqDecision Q.
Proof. solve_decision. Defined.
#[export] Instance Row_eq_dec : EqDecision Row.
Proof. solve_decision. Defined.
#[export] Instance Elements_eq_dec : EqDecision Elements.
Proof. solve_decision. Defined.
#[export] Instance pyval_eq_dec : EqDecision pyval.
Proof. solve_decision. Defined.

(** [str(e)]: a KeyError prints its key quoted. *)
Definition exn_str (e : exn) : string :=
  match e with
  | KeyError k => "'" +:+ k +:+ "'"
  | IndexError w => w
  | TypeError w => w
  | ValueError w => w
  | ProviderError m => m
  end.

(** [d[k]] *)
Definition getitem (d : pydict) (k : string) : result exn pyval :=
  match d !! k with
  | Some v => Ok v
  | None => Err (KeyError k)
  end.

Definition get_str (d : pydict) (k : string) : result exn string :=
  let? v := getitem d k in
  match v with VStr s => Ok s | _ => Err (TypeError k) end.

Definition get_bool (d : pydict) (k : string) : result exn bool :=
  let? v := getitem d k in
  match v with VBool b => Ok b | _ => Err (TypeError k) end.

Definition get_int (d : pydict) (k : string) : result exn Z :=
  let? v := getitem d k in
  match v with VInt z => Ok z | _ => Err (TypeError k) end.

Definition get_date (d : pydict) (k : string) : result exn date :=
  let? v := getitem d k in
  match v with VDate x => Ok x | _ => Err (TypeError k) end.

Definition get_row (d : pydict) (k : string) : result exn Row :=
  let? v := getitem d k in
  match v with VRow x => Ok x | _ => Err (TypeError k) end.

Definition get_table (d : pydict) (k : string) : result exn (list Row) :=
  let? v := getitem d k in
  match v with VTable x => Ok x | _ => Err (TypeError k) end.

Definition get_elems (d : pydict) (k : string) : result exn Elements :=
  let? v := getitem d k in
  match v with VElems x => Ok x | _ => Err (TypeError k) end.

(** The dict literal of a catalog entry; a planet has no ["launch_date"]. *)
Definition target_dict (t : target) : pydict :=
  let base : pydict :=
    <["isSpacecraft" := VBool (isSpacecraft t)]> (<["size" := VInt (size t)]>
      (<["color" := VStr (color t)]> (<["name" := VStr (name t)]> ∅))) in
  match launch_date t with
  | Some d => <["launch_date" := VDate d]> base
  | None => base
  end.

(** The keys the catalog literal sets: [GetAstroData] never writes them. *)
Definition static_keys : list string := ["name"; "color"; "size"; "isSpacecraft"; "launch_date"].

(** ** Lemmas *)

Lemma get_str_ok (d : pydict) k s : d !! k = Some (VStr s) -> get_str d k = Ok s.
Proof. unfold get_str, getitem. intros ->. reflexivity. Qed.

Lemma get_bool_ok (d : pydict) k b : d !! k = Some (VBool b) -> get_bool d k = Ok b.
Proof. unfold get_bool, getitem. intros ->. reflexivity. Qed.

Lemma get_date_ok (d : pydict) k x : d !! k = Some (VDate x) -> get_date d k = Ok x.
Proof. unfold get_date, getitem. intros ->. reflexivity. Qed.

Lemma get_row_ok (d : pydict) k x : d !! k = Some (VRow x) -> get_row d k = Ok x.
Proof. unfold get_row, getitem. intros ->. reflexivity. Qed.

Lemma get_table_ok (d : pydict) k x : d !! k = Some (VTable x) -> get_table d k = Ok x.
Proof. unfold get_table, getitem. intros ->. reflexivity. Qed.

Lemma get_elems_ok (d : pydict) k x : d !! k = Some (VElems x) -> get_elems d k = Ok x.
Proof. unfold get_elems, getitem. intros ->. reflexivity. Qed.

Lemma getitem_missing (d : pydict) k : d !! k = None -> getitem d k = Err (KeyError k).
Proof. unfold getitem. intros ->. reflexivity. Qed.

#[export] Hint Resolve get_str_ok get_bool_ok get_date_ok get_row_ok get_table_ok
  get_elems_ok getitem_missing : cw.

Lemma target_dict_name (t : target) : target_dict t !! "name" = Some (VStr (name t)).
Proof. unfold target_dict. destruct (launch_date t); reflexivity. Qed.

Lemma target_dict_isSpacecraft (t : target) :
  target_dict t !! "isSpacecraft" = Some (VBool (isSpacecraft t)).
Proof. unfold target_dict. destruct (launch_date t); reflexivity. Qed.

Lemma target_dict_launch_date (t : target) :
  target_dict t !! "launch_date" = VDate <$> launch_date t.
Proof. unfold target_dict. destruct (launch_date t); reflexivity. Qed.
