(* ===== verification/Geometry.v ===== *)
(** * Geometry: projector, orbit reconstructor and trajectory builder

    The numeric core of src/clipperwatch.py, over the reals [R].  Inputs
    are the exact values ([Q2R]) of the ephemeris floats.  Numpy's
    element-wise array operations become [map] and [map2] over lists of
    the same length.

    - [radians]: [np.radians(x)], that is [x * (pi / 180)].
    - [project]: the Coordinate Projector, [x = dist * cos(angle_rad)],
      [y = dist * sin(angle_rad)] (lines 232-236 and 316-320).
      [project_row] applies it to a row's ["EclLon"] and ["r"].
    - [linspace]: [np.linspace(start, stop, num)].  Index [i] is
      [i * step + start], and the last index is set to [stop].
    - [reconstructOrbit]: the Orbit Path Reconstructor of [PlotTargets]
      (lines 251-277), step for step.  It builds the array [theta], then
      [r], then [x] and [y], then [x_rot] and [y_rot].
    - [buildTrajectory]: the loop of [PlotSpacecraftTail] (lines 309-326).
      It appends each projected sample to [x_list] and [y_list].

    Reference definitions state what the code means: [norm], [rotate] and
    [orbit_point] (a point of the polar conic with the Sun at the focus,
    rotated by the longitude of perihelion).  The theorems prove the
    following.
    - The array code equals the pointwise reference.
    - A projected point lies at distance [|dist|] from the Sun, in the
      direction of its longitude read in degrees counterclockwise from
      the x axis.
    - The orbit polyline has 360 points, is closed, and is a circle of
      radius [a] when [e = 0].
    - Every orbit point satisfies the focus-directrix equation
      [r + e x' = a(1 - e^2)]: the Sun is a focus of the drawn conic and
      its axis points to [w + Omega].
    - The first point is the perihelion, in the direction [w + Omega].
    - The trajectory is the samples' projections, one for one, in order. *)

From Stdlib Require Import Reals Lra Lia List QArith Qreals.
From S2P Require Import Prelude Ephemeris.
Import ListNotations.
Local Open Scope R_scope.

(** [np.radians] *)
Definition radians (deg : R) : R := deg * (PI / 180).

(** The Coordinate Projector. *)
Definition project (lon dist : R) : R * R :=
  let angle_rad := radians lon in (dist * cos angle_rad, dist * sin angle_rad).

(** [lon = eph["EclLon"]], [dist = eph["r"]], then the projection. *)
Definition project_row (row : Row) : R * R := project (Q2R (EclLon row)) (Q2R (r row)).

(** Element-wise combination of two numpy arrays of the same shape. *)
Fixpoint map2 {A B C} (f : A -> B -> C) (l1 : list A) (l2 : list B) : list C :=
  match l1, l2 with
  | x :: l1', y :: l2' => f x y :: map2 f l1' l2'
  | _, _ => []
  end.

(** [np.linspace(start, stop, num)] with [endpoint=True]. *)
Definition linspace (start stop : R) (num : nat) : list R :=
  let div := (num - 1)%nat in
  let step := (stop - start) / INR div in
  map (fun i => if andb (Nat.ltb 1 num) (Nat.eqb i div) then stop else INR i * step + start)
      (seq 0 num).

(** [r = (a * (1 - ec**2)) / (1 + ec * np.cos(theta))] at one angle. *)
Definition orbit_r (a ec theta : R) : R := a * (1 - ec ^ 2) / (1 + ec * cos theta).

(** The Orbit Path Reconstructor, array by array as [PlotTargets] has it. *)
Definition reconstructOrbit (el : Elements) : list (R * R) :=
  let a := Q2R (el_a el) in
  let ec := Q2R (el_e el) in
  let w := Q2R (el_w el) in
  let om := Q2R (el_Omega el) in
  let theta := linspace 0 (2 * PI) 360 in
  let r := map (orbit_r a ec) theta in
  let x := map2 (fun ri th => ri * cos th) r theta in
  let y := map2 (fun ri th => ri * sin th) r theta in
  let total_rotation := radians (w + om) in
  let x_rot := map2 (fun xi yi => xi * cos total_rotation - yi * sin total_rotation) x y in
  let y_rot := map2 (fun xi yi => xi * sin total_rotation + yi * cos total_rotation) x y in
  combine x_rot y_rot.

(** One pass of [for week in obj["ephSinceLaunchSun"]]. *)
Definition tail_step (acc : list R * list R) (week : Row) : list R * list R :=
  let (x_list, y_list) := acc in
  let (x, y) := project_row week in
  (x_list ++ [x], y_list ++ [y]).

(** The Trajectory Builder: the polyline [ax.plot(x_array, y_array)] draws. *)
Definition buildTrajectory (weeks : list Row) : list (R * R) :=
  let (x_list, y_list) := fold_left tail_step weeks ([], []) in
  combine x_list y_list.

(** ** Reference geometry *)

Definition norm (p : R * R) : R := sqrt (fst p * fst p + snd p * snd p).

Definition rotate (phi : R) (p : R * R) : R * R :=
  (fst p * cos phi - snd p * sin phi, fst p * sin phi + snd p * cos phi).

Definition orbit_point (a ec phi theta : R) : R * R :=
  rotate phi (orbit_r a ec theta * cos theta, orbit_r a ec theta * sin theta).

(** The value [np.linspace] stores at index [i]. *)
Definition linspace_at (start stop : R) (num i : nat) : R :=
  if andb (Nat.ltb 1 num) (Nat.eqb i (num - 1)) then stop
  else INR i * ((stop - start) / INR (num - 1)) + start.

(** ** Lists: numpy arrays as lists *)

Section Arrays.
Context {A B C D : Type}.

Lemma map2_map_l (f : B -> A -> C) (g : A -> B) (l : list A) :
  map2 f (map g l) l = map (fun x => f (g x) x) l.
Proof. induction l as [|x l IH]; cbn; [reflexivity | now rewrite IH]. Qed.

Lemma map2_maps (f : B -> C -> D) (g : A -> B) (h : A -> C) (l : list A) :
  map2 f (map g l) (map h l) = map (fun x => f (g x) (h x)) l.
Proof. induction l as [|x l IH]; cbn; [reflexivity | now rewrite IH]. Qed.

Lemma combine_maps (g : A -> B) (h : A -> C) (l : list A) :
  combine (map g l) (map h l) = map (fun x => (g x, h x)) l.
Proof. induction l as [|x l IH]; cbn; [reflexivity | now rewrite IH]. Qed.

Lemma combine_fst_snd (l : list (A * B)) : combine (map fst l) (map snd l) = l.
Proof. induction l as [|[x y] l IH]; cbn; [reflexivity | now rewrite IH]. Qed.
End Arrays.

(** ** Distances *)

Lemma norm_polar (rho theta : R) : norm (rho * cos theta, rho * sin theta) = Rabs rho.
Proof.
  unfold norm; cbn [fst snd]. rewrite <- sqrt_Rsqr_abs. f_equal.
  pose proof (sin2_cos2 theta) as H. unfold Rsqr in *. nra.
Qed.

Lemma norm_rotate (phi : R) (p : R * R) : norm (rotate phi p) = norm p.
Proof.
  destruct p as [x y]. unfold norm, rotate; cbn [fst snd]. f_equal.
  pose proof (sin2_cos2 phi) as H. unfold Rsqr in *.
  transitivity ((x * x + y * y) * (sin phi * sin phi + cos phi * cos phi)); [ring|].
  rewrite H. ring.
Qed.

Lemma norm_orbit_point (a ec phi theta : R) :
  norm (orbit_point a ec phi theta) = Rabs (orbit_r a ec theta).
Proof. unfold orbit_point. now rewrite norm_rotate, norm_polar. Qed.

Lemma orbit_r_mul (a ec theta : R) :
  1 + ec * cos theta <> 0 -> orbit_r a ec theta * (1 + ec * cos theta) = a * (1 - ec ^ 2).
Proof. intros Hd. unfold orbit_r. field. exact Hd. Qed.

(** Perihelion and aphelion bound the focal distance of a closed orbit. *)
Lemma orbit_r_bounds (a ec theta : R) :
  0 <= ec < 1 -> 0 < a ->
  0 < 1 + ec * cos theta /\ a * (1 - ec) <= orbit_r a ec theta <= a * (1 + ec).
Proof.
  intros He Ha. pose proof (COS_bound theta) as Hc.
  assert (Hd : 0 < 1 + ec * cos theta) by nra.
  split; [exact Hd|].
  assert (Hlo : 1 - ec <= 1 + ec * cos theta) by nra.
  assert (Hhi : 1 + ec * cos theta <= 1 + ec) by nra.
  split; apply Rmult_le_reg_r with (1 + ec * cos theta); try exact Hd;
    rewrite orbit_r_mul by lra.
  - replace (a * (1 - ec ^ 2)) with (a * (1 - ec) * (1 + ec)) by ring.
    apply Rmult_le_compat_l; [nra | exact Hhi].
  - replace (a * (1 - ec ^ 2)) with (a * (1 + ec) * (1 - ec)) by ring.
    apply Rmult_le_compat_l; [nra | exact Hlo].
Qed.

(** ** [np.linspace] *)

Lemma length_linspace (start stop : R) (num : nat) : length (linspace start stop num) = num.
Proof. unfold linspace. now rewrite length_map, length_seq. Qed.

Lemma nth_error_linspace (start stop : R) (num i : nat) :
  (i < num)%nat -> nth_error (linspace start stop num) i = Some (linspace_at start stop num i).
Proof.
  intros Hi. unfold linspace. rewrite nth_error_map, nth_error_seq.
  destruct (Nat.ltb_spec i num); [reflexivity | lia].
Qed.

Lemma linspace_at_first (start stop : R) (num : nat) :
  (1 < num)%nat -> linspace_at start stop num 0 = start.
Proof.
  intros Hn. unfold linspace_at. destruct (Nat.ltb_spec 1 num); [|lia].
  destruct (Nat.eqb_spec 0 (num - 1)); [lia|]. cbn [andb INR]. ring.
Qed.

Lemma linspace_at_last (start stop : R) (num : nat) :
  (1 < num)%nat -> linspace_at start stop num (num - 1) = stop.
Proof.
  intros Hn. unfold linspace_at. destruct (Nat.ltb_spec 1 num); [|lia].
  now rewrite Nat.eqb_refl.
Qed.

(** Every sample of [np.linspace(start, stop, num)] lies in [[start, stop]]. *)
Lemma linspace_at_range (start stop : R) (num i : nat) :
  start <= stop -> (i < num)%nat -> start <= linspace_at start stop num i <= stop.
Proof.
  intros Hss Hi. unfold linspace_at.
  destruct (Nat.ltb_spec 1 num), (Nat.eqb_spec i (num - 1)); cbn [andb]; try lra;
    try (exfalso; lia).
  - assert (0 < INR (num - 1)) by (apply lt_0_INR; lia).
    assert (INR i <= INR (num - 1)) by (apply le_INR; lia).
    pose proof (pos_INR i).
    assert (0 <= INR i * ((stop - start) / INR (num - 1)) <= stop - start); [|lra].
    split; [apply Rmult_le_pos; [lra | unfold Rdiv; apply Rmult_le_pos; [lra | apply Rlt_le, Rinv_0_lt_compat; lra]]|].
    apply Rmult_le_reg_r with (INR (num - 1)); [lra|].
    unfold Rdiv. rewrite Rmult_assoc, (Rmult_assoc (stop - start)), Rinv_l by lra. nra.
  - assert (i = 0%nat) as -> by lia. cbn [INR]. lra.
Qed.

Lemma Q2R_zero : Q2R 0 = 0.
Proof. unfold Q2R. cbn. field. Qed.

Lemma Q2R_le (x y : Q) : (x <= y)%Q -> Q2R x <= Q2R y.
Proof. apply Qle_Rle. Qed.

Lemma Q2R_lt (x y : Q) : (x < y)%Q -> Q2R x < Q2R y.
Proof. apply Qlt_Rlt. Qed.

(** The longitude of perihelion [w + Omega], in radians, that the
    reconstructor rotates by. *)
Definition perihelion_angle (el : Elements) : R := radians (Q2R (el_w el) + Q2R (el_Omega el)).

(** The array program of [PlotTargets] computes the pointwise reference:
    the rotated conic point at each sample angle. *)
Lemma reconstructOrbit_pointwise (el : Elements) :
  reconstructOrbit el =
  map (orbit_point (Q2R (el_a el)) (Q2R (el_e el)) (perihelion_angle el))
      (linspace 0 (2 * PI) 360).
Proof.
  unfold reconstructOrbit, perihelion_angle. cbv zeta.
  rewrite !map2_map_l, map2_maps, map2_maps, combine_maps. reflexivity.
Qed.

Lemma in_reconstructOrbit (el : Elements) (p : R * R) :
  In p (reconstructOrbit el) ->
  exists theta, 0 <= theta <= 2 * PI /\
    p = orbit_point (Q2R (el_a el)) (Q2R (el_e el)) (perihelion_angle el) theta.
Proof.
  rewrite reconstructOrbit_pointwise, in_map_iff. intros [theta [<- Hin]].
  exists theta. split; [|reflexivity].
  apply In_nth_error in Hin as [i Hi].
  assert (i < 360)%nat as Hlt.
  { rewrite <- (length_linspace 0 (2 * PI) 360). apply nth_error_Some. rewrite Hi. discriminate. }
  rewrite nth_error_linspace in Hi by exact Hlt. injection Hi as <-.
  apply linspace_at_range; [pose proof PI_RGT_0; lra | exact Hlt].
Qed.

(** The component of a rotated vector along the rotated x axis is the
    component of the vector along x. *)
Lemma dot_rotate (phi : R) (v : R * R) :
  fst (rotate phi v) * cos phi + snd (rotate phi v) * sin phi = fst v.
Proof.
  destruct v as [x y]. unfold rotate; cbn [fst snd].
  pose proof (sin2_cos2 phi) as H. unfold Rsqr in H.
  transitivity (x * (sin phi * sin phi + cos phi * cos phi)); [ring|]. rewrite H. ring.
Qed.


(** C13: the reconstructed orbit is a closed polyline of 360 points: its
    first and last points coincide. *)
Theorem reconstructOrbit_closed (el : Elements) :
  length (reconstructOrbit el) = 360%nat /\
  nth_error (reconstructOrbit el) 0 = nth_error (reconstructOrbit el) 359.
Proof.
  rewrite reconstructOrbit_pointwise. split; [now rewrite length_map, length_linspace|].
  rewrite !nth_error_map, !nth_error_linspace by lia. cbn [option_map].
  replace 359%nat with (360 - 1)%nat by reflexivity.
  rewrite linspace_at_first, linspace_at_last by lia.
  unfold orbit_point, orbit_r. now rewrite cos_0, sin_0, cos_2PI, sin_2PI.
Qed.

(** C15: with eccentricity 0 the orbit is the circle of radius [a] about the
    Sun, whatever the periapsis and node angles. *)
Theorem reconstructOrbit_circle (el : Elements) :
  (el_e el == 0)%Q -> forall p, In p (reconstructOrbit el) -> norm p = Rabs (Q2R (el_a el)).
Proof.
  intros He p Hp. apply in_reconstructOrbit in Hp as [theta [_ ->]].
  rewrite norm_orbit_point. f_equal. apply Qeq_eqR in He. rewrite Q2R_zero in He.
  unfold orbit_r. rewrite He. field; lra.
Qed.

(** C12: every point of the orbit of a closed body ([0 <= e < 1],
    [a > 0]) lies on the conic whose focus is the Sun and whose major axis
    points to the perihelion direction [w + Omega]: its distance [r] from
    the Sun and its coordinate [x'] along that axis satisfy the
    focus-directrix equation [r + e x' = a (1 - e^2)]. *)
Theorem reconstructOrbit_focus (el : Elements) :
  (0 <= el_e el < 1)%Q -> (0 < el_a el)%Q ->
  forall p, In p (reconstructOrbit el) ->
  norm p + Q2R (el_e el) * (fst p * cos (perihelion_angle el) + snd p * sin (perihelion_angle el))
  = Q2R (el_a el) * (1 - Q2R (el_e el) ^ 2).
Proof.
  intros [He0 He1] Ha p Hp. apply in_reconstructOrbit in Hp as [theta [_ ->]].
  apply Q2R_le in He0. apply Q2R_lt in He1, Ha. rewrite Q2R_zero in He0, Ha.
  assert (Q2R 1 = 1) as E1 by (unfold Q2R; cbn; field). rewrite E1 in He1.
  destruct (orbit_r_bounds (Q2R (el_a el)) (Q2R (el_e el)) theta) as [Hd [Hlo _]]; [lra | lra|].
  assert (0 < Q2R (el_a el) * (1 - Q2R (el_e el))) by (apply Rmult_lt_0_compat; lra).
  rewrite norm_orbit_point, Rabs_right by lra. unfold orbit_point. rewrite dot_rotate. cbn [fst].
  rewrite <- (orbit_r_mul _ _ theta) by lra. ring.
Qed.

(** C14: the first point of the orbit is its perihelion: at distance
    [a(1 - e)] in the direction of the longitude of perihelion [w + Omega]. *)
Theorem reconstructOrbit_perihelion (el : Elements) :
  (0 <= el_e el)%Q ->
  nth_error (reconstructOrbit el) 0 =
  Some (Q2R (el_a el) * (1 - Q2R (el_e el)) * cos (perihelion_angle el),
        Q2R (el_a el) * (1 - Q2R (el_e el)) * sin (perihelion_angle el)).
Proof.
  intros He. apply Q2R_le in He. rewrite Q2R_zero in He.
  rewrite reconstructOrbit_pointwise, nth_error_map, nth_error_linspace by lia.
  cbn [option_map]. rewrite linspace_at_first by lia.
  unfold orbit_point, rotate, orbit_r. cbn [fst snd]. rewrite cos_0, sin_0.
  f_equal. f_equal; field; lra.
Qed.

Lemma fold_tail_step (weeks : list Row) (xs ys : list R) :
  fold_left tail_step weeks (xs, ys) =
  (xs ++ map fst (map project_row weeks), ys ++ map snd (map project_row weeks)).
Proof.
  revert xs ys. induction weeks as [|w weeks IH]; intros xs ys; cbn [fold_left map].
  - now rewrite !app_nil_r.
  - assert (tail_step (xs, ys) w = (xs ++ [fst (project_row w)], ys ++ [snd (project_row w)]))
      as -> by (unfold tail_step; destruct (project_row w); reflexivity).
    rewrite IH. cbn [map]. now rewrite <- !app_assoc.
Qed.

(** The Trajectory Builder's loop computes [map project_row] of the
    samples. *)
Lemma buildTrajectory_map (weeks : list Row) :
  buildTrajectory weeks = map project_row weeks.
Proof. unfold buildTrajectory. rewrite fold_tail_step. apply combine_fst_snd. Qed.

(** C17: the Trajectory Builder's loop projects the samples one for one
    and in their order: a trajectory has exactly as many points as
    samples, and its [i]-th point is the projection of the [i]-th sample. *)
Theorem buildTrajectory_order (weeks : list Row) :
  length (buildTrajectory weeks) = length weeks /\
  forall i, nth_error (buildTrajectory weeks) i = option_map project_row (nth_error weeks i).
Proof.
  rewrite buildTrajectory_map. split; [apply length_map | intros i; apply nth_error_map].
Qed.

(** ** Witnesses *)

Lemma reconstructOrbit_circle_witness :
  (el_e (mkelements 1 0 10 20) == 0)%Q /\
  forall p, In p (reconstructOrbit (mkelements 1 0 10 20)) -> norm p = Rabs (Q2R 1).
Proof. split; [reflexivity | apply reconstructOrbit_circle; reflexivity]. Defined.

(** Earth's elements: a = 1 AU, e = 0.0167, w = 114.2, Omega = -11.3. *)
Lemma reconstructOrbit_focus_witness :
  (0 <= el_e (mkelements 1 (167 # 10000) (1142 # 10) (-113 # 10)) < 1)%Q /\
  (0 < el_a (mkelements 1 (167 # 10000) (1142 # 10) (-113 # 10)))%Q /\
  forall p, In p (reconstructOrbit (mkelements 1 (167 # 10000) (1142 # 10) (-113 # 10))) ->
  norm p + Q2R (167 # 10000) *
    (fst p * cos (perihelion_angle (mkelements 1 (167 # 10000) (1142 # 10) (-113 # 10)))
     + snd p * sin (perihelion_angle (mkelements 1 (167 # 10000) (1142 # 10) (-113 # 10))))
  = Q2R 1 * (1 - Q2R (167 # 10000) ^ 2).
Proof.
  assert (H1 : (0 <= 167 # 10000 < 1)%Q) by (split; [apply Qle_bool_iff | ]; reflexivity).
  assert (H2 : (0 < 1)%Q) by reflexivity.
  split; [exact H1 | split; [exact H2|]].
  apply (reconstructOrbit_focus (mkelements 1 (167 # 10000) (1142 # 10) (-113 # 10)) H1 H2).
Defined.

Lemma reconstructOrbit_perihelion_witness :
  (0 <= el_e (mkelements 1 (167 # 10000) (1142 # 10) (-113 # 10)))%Q /\
  nth_error (reconstructOrbit (mkelements 1 (167 # 10000) (1142 # 10) (-113 # 10))) 0 =
  Some (Q2R 1 * (1 - Q2R (167 # 10000)) * cos (perihelion_angle (mkelements 1 (167 # 10000) (1142 # 10) (-113 # 10))),
        Q2R 1 * (1 - Q2R (167 # 10000)) * sin (perihelion_angle (mkelements 1 (167 # 10000) (1142 # 10) (-113 # 10)))).
Proof.
  assert (H : (0 <= 167 # 10000)%Q) by (apply Qle_bool_iff; reflexivity).
  split; [exact H | apply (reconstructOrbit_perihelion (mkelements 1 (167 # 10000) (1142 # 10) (-113 # 10)) H)].
Defined.
