(* ===== verification/Telemetry.v ===== *)
(** * Telemetry: the status-bar lines of src/clipperwatch.py

    The three formatters read the target dict filled by [GetAstroData] and
    return a line of text.  A missing key raises [KeyError], which is the
    script's form of the spec's MissingTelemetryContext.
    - [GetDistSpeedFrom obj observer] (lines 332-342) reads
      [obj["eph" + observer]]'s ["delta"] and ["delta_rate"].  It chooses
      "moving away" when the rate is positive, else "moving closer", and
      prints both numbers with [.5f].
    - [GetSignalDelay obj] (lines 345-351) converts [obj["ephEarth"]
      ["delta"]] from AU to km with astropy's factor 149597870.7 and
      divides by c = 299792.458 km/s.  The astropy quantity prints as
      ["%.3f s"].
    - [GetMissionDays obj today] (lines 354-356) is
      [(date.today() - obj["launch_date"]).days], with [today] an input.
    - [status_message obj today] is the f-string of
      [PlotTitleLegendStatusBar] (lines 369-378).  Its fields are
      evaluated left to right, so the first missing key is the one raised.

    Theorems:
    - each formatter fails with KeyError naming the missing key, and never
      prints a placeholder;
    - the sign convention of the motion label holds, and the speed field
      is the same for a rate and its opposite;
    - the printed signal delay is within 0.0005 s of the one-way light
      time, which increases with the range;
    - the mission day line reads back as the number of calendar days
      since launch. *)

From stdpp Require Import base gmap strings.
From Stdlib Require Import Ascii ZArith QArith Qabs Lqa.
From S2P Require Import Prelude Format Dates Ephemeris PyObj.
Local Open Scope cw_scope.

(** [u.au.to(u.km)]: 149597870.7 km. *)
Definition AU_KM : Q := 1495978707 # 10.

(** [const.c.to(u.km / u.s)]: 299792.458 km/s. *)
Definition C_KM_S : Q := 299792458 # 1000.

(** [speed > 0] *)
Definition motion_label (speed : Q) : string :=
  if Qle_bool speed 0 then "moving closer" else "moving away".

Definition GetDistSpeedFrom (obj : pydict) (observer : string) : result exn string :=
  let ephKey := "eph" +:+ observer in
  let? eph := get_row obj ephKey in
  let dist := delta eph in
  let speed := delta_rate eph in
  let motion := motion_label speed in
  let speed := Qabs speed in
  Ok ("Distance to " +:+ observer +:+ ": " +:+ format_fixed 5 dist +:+ " AU and "
      +:+ motion +:+ " @ " +:+ format_fixed 5 speed +:+ " Km/s").

(** [distEarthKm / lightSpeedKm], in seconds. *)
Definition light_time (distEarthAu : Q) : Q := distEarthAu * AU_KM / C_KM_S.

Definition GetSignalDelay (obj : pydict) : result exn string :=
  let? eph := get_row obj "ephEarth" in
  let ltt := light_time (delta eph) in
  Ok ("Signal Delay: " +:+ format_fixed 3 ltt +:+ " s").

Definition GetMissionDays (obj : pydict) (today : date) : result exn string :=
  let? launch := get_date obj "launch_date" in
  let days_passed := date_sub_days today launch in
  Ok ("Mission day: " +:+ show_int days_passed).

Definition nl : string := String "010"%char EmptyString.

(** The message of [PlotTitleLegendStatusBar], field by field. *)
Definition status_message (obj : pydict) (today : date) : result exn string :=
  let? nm := get_str obj "name" in
  let? ephSun := get_row obj "ephSun" in
  let? md := GetMissionDays obj today in
  let? sd := GetSignalDelay obj in
  let? dsun := GetDistSpeedFrom obj "Sun" in
  let? dearth := GetDistSpeedFrom obj "Earth" in
  let? deuropa := GetDistSpeedFrom obj "Europa" in
  Ok (nl +:+ "    " +:+ nm +:+ nl
      +:+ "    System Status: Nominal" +:+ nl
      +:+ "    Epoch: " +:+ datetime_str ephSun +:+ nl
      +:+ "    " +:+ md +:+ nl
      +:+ "    " +:+ sd +:+ nl
      +:+ "    " +:+ dsun +:+ nl
      +:+ "    " +:+ dearth +:+ nl
      +:+ "    " +:+ deuropa +:+ nl
      +:+ "    ").

(** A dict holding one ephemeris row under [key], for the examples. *)
Definition dict_with_row (key : string) (row : Row) : pydict := {[ key := VRow row ]}.

Definition row_at (dist rate : Q) : Row := mkrow "Europa Clipper " "2026-Nov-09 00:00" 0 0 0 0 dist rate.

Example signal_delay_one_au :
  GetSignalDelay (dict_with_row "ephEarth" (row_at 1 0)) = Ok "Signal Delay: 499.005 s".
Proof. vm_compute. reflexivity. Qed.

Example signal_delay_jupiter :
  GetSignalDelay (dict_with_row "ephEarth" (row_at (52 # 10) 0)) = Ok "Signal Delay: 2594.825 s".
Proof. vm_compute. reflexivity. Qed.

Example dist_speed_away :
  GetDistSpeedFrom (dict_with_row "ephSun" (row_at 1 (5 # 2))) "Sun"
  = Ok "Distance to Sun: 1.00000 AU and moving away @ 2.50000 Km/s".
Proof. vm_compute. reflexivity. Qed.

Example dist_speed_closer :
  GetDistSpeedFrom (dict_with_row "ephSun" (row_at 1 (- 5 # 2))) "Sun"
  = Ok "Distance to Sun: 1.00000 AU and moving closer @ 2.50000 Km/s".
Proof. vm_compute. reflexivity. Qed.

(** ** Lemmas *)

Lemma Qabs_opp_eq (v : Q) : Qabs (- v) = Qabs v.
Proof. destruct v as [n d]. unfold Qabs, Qopp. cbn. now rewrite Z.abs_opp. Qed.

Lemma motion_label_pos (v : Q) : (0 < v)%Q -> motion_label v = "moving away".
Proof.
  intros Hv. unfold motion_label. destruct (Qle_bool v 0) eqn:E; [|reflexivity].
  apply Qle_bool_iff in E. exfalso. apply (Qlt_not_le 0 v Hv E).
Qed.

Lemma motion_label_nonpos (v : Q) : (v <= 0)%Q -> motion_label v = "moving closer".
Proof. intros Hv. unfold motion_label. apply Qle_bool_iff in Hv. now rewrite Hv. Qed.

Lemma get_row_missing (obj : pydict) (k : string) :
  obj !! k = None -> get_row obj k = Err (KeyError k).
Proof. unfold get_row, getitem. intros ->. reflexivity. Qed.

Lemma get_date_missing (obj : pydict) (k : string) :
  obj !! k = None -> get_date obj k = Err (KeyError k).
Proof. unfold get_date, getitem. intros ->. reflexivity. Qed.

(** The line [GetDistSpeedFrom] prints for a row. *)
Lemma GetDistSpeedFrom_row (obj : pydict) (observer : string) (row : Row) :
  obj !! ("eph" +:+ observer) = Some (VRow row) ->
  GetDistSpeedFrom obj observer =
  Ok ("Distance to " +:+ observer +:+ ": " +:+ format_fixed 5 (delta row) +:+ " AU and "
      +:+ motion_label (delta_rate row) +:+ " @ " +:+ format_fixed 5 (Qabs (delta_rate row))
      +:+ " Km/s").
Proof. intros H. unfold GetDistSpeedFrom. now rewrite (get_row_ok _ _ _ H). Qed.

(** ** Theorems *)

(** C21: each telemetry formatter invoked without the context it reads
    fails with a KeyError naming the missing key; none returns a
    placeholder value. *)
Theorem telemetry_missing_context (obj : pydict) (today : date) (observer : string) :
  (obj !! ("eph" +:+ observer) = None ->
     GetDistSpeedFrom obj observer = Err (KeyError ("eph" +:+ observer))) /\
  (obj !! "ephEarth" = None -> GetSignalDelay obj = Err (KeyError "ephEarth")) /\
  (obj !! "launch_date" = None -> GetMissionDays obj today = Err (KeyError "launch_date")).
Proof.
  split; [|split]; intros H.
  - unfold GetDistSpeedFrom. now rewrite get_row_missing.
  - unfold GetSignalDelay. now rewrite get_row_missing.
  - unfold GetMissionDays. now rewrite get_date_missing.
Qed.

(** C18: the range-rate sign convention: a positive rate is reported as
    "moving away" and its opposite as "moving closer", and the two lines
    agree in everything else, the printed speed included. *)
Theorem GetDistSpeedFrom_motion (obj1 obj2 : pydict) (observer : string) (row1 row2 : Row) :
  obj1 !! ("eph" +:+ observer) = Some (VRow row1) ->
  obj2 !! ("eph" +:+ observer) = Some (VRow row2) ->
  delta row2 = delta row1 -> delta_rate row2 = (- delta_rate row1)%Q ->
  (0 < delta_rate row1)%Q ->
  exists pre post,
    GetDistSpeedFrom obj1 observer = Ok (pre +:+ "moving away" +:+ post) /\
    GetDistSpeedFrom obj2 observer = Ok (pre +:+ "moving closer" +:+ post).
Proof.
  intros H1 H2 Ed Er Hv.
  rewrite (GetDistSpeedFrom_row _ _ _ H1), (GetDistSpeedFrom_row _ _ _ H2), Ed, Er, Qabs_opp_eq.
  rewrite motion_label_pos by exact Hv. rewrite motion_label_nonpos by lra.
  exists ("Distance to " +:+ observer +:+ ": " +:+ format_fixed 5 (delta row1) +:+ " AU and "),
    (" @ " +:+ format_fixed 5 (Qabs (delta_rate row1)) +:+ " Km/s").
  split; f_equal; rewrite !string_app_assoc; reflexivity.
Qed.

(** C19: the printed signal delay is the one-way light time for the
    Earth range, [delta * 149597870.7 / 299792.458] seconds, to within half
    a millisecond. *)
Theorem GetSignalDelay_accuracy (obj : pydict) (row : Row) :
  obj !! "ephEarth" = Some (VRow row) ->
  exists txt v, GetSignalDelay obj = Ok ("Signal Delay: " +:+ txt +:+ " s") /\
    parse_fixed txt = Some v /\ (Qabs (v - delta row * AU_KM / C_KM_S) <= 1 # 2000)%Q.
Proof.
  intros H. destruct (format_fixed_close 3 (light_time (delta row))) as [v [Hp Hb]].
  exists (format_fixed 3 (light_time (delta row))), v. split; [|split; [exact Hp|]].
  - unfold GetSignalDelay. now rewrite (get_row_ok _ _ _ H).
  - exact Hb.
Qed.

(** The light time grows strictly with the range (holding the
    constants fixed). *)
Lemma light_time_increasing (d1 d2 : Q) :
  (d1 < d2)%Q -> (light_time d1 < light_time d2)%Q.
Proof.
  intros H. unfold light_time, Qdiv. rewrite <- !Qmult_assoc.
  apply Qmult_lt_r; [reflexivity | exact H].
Qed.

(** C20: [GetMissionDays] prints the number of calendar days since launch:
    on the [n]-th day after launch it prints [n]. *)
Theorem GetMissionDays_count (obj : pydict) (launch : date) (n : nat) :
  obj !! "launch_date" = Some (VDate launch) -> valid_md launch = true ->
  GetMissionDays obj (Nat.iter n next_day launch) = Ok ("Mission day: " +:+ show_int (Z.of_nat n)).
Proof.
  intros H Hv. unfold GetMissionDays. rewrite (get_date_ok _ _ _ H). cbn [rbind].
  unfold date_sub_days. rewrite toordinal_iter by exact Hv. do 3 f_equal. lia.
Qed.

(** ** Witnesses *)

Lemma GetDistSpeedFrom_motion_witness :
  dict_with_row "ephSun" (row_at 1 (5 # 2)) !! ("eph" +:+ "Sun") = Some (VRow (row_at 1 (5 # 2))) /\
  dict_with_row "ephSun" (row_at 1 (-5 # 2)) !! ("eph" +:+ "Sun") = Some (VRow (row_at 1 (-5 # 2))) /\
  delta (row_at 1 (-5 # 2)) = delta (row_at 1 (5 # 2)) /\
  delta_rate (row_at 1 (-5 # 2)) = (- delta_rate (row_at 1 (5 # 2)))%Q /\
  (0 < delta_rate (row_at 1 (5 # 2)))%Q /\
  exists pre post,
    GetDistSpeedFrom (dict_with_row "ephSun" (row_at 1 (5 # 2))) "Sun" = Ok (pre +:+ "moving away" +:+ post) /\
    GetDistSpeedFrom (dict_with_row "ephSun" (row_at 1 (-5 # 2))) "Sun" = Ok (pre +:+ "moving closer" +:+ post).
Proof.
  do 5 (split; [reflexivity|]).
  apply (GetDistSpeedFrom_motion _ _ "Sun" (row_at 1 (5 # 2)) (row_at 1 (-5 # 2)));
    reflexivity.
Defined.

Lemma GetSignalDelay_accuracy_witness :
  dict_with_row "ephEarth" (row_at 1 0) !! "ephEarth" = Some (VRow (row_at 1 0)) /\
  exists txt v, GetSignalDelay (dict_with_row "ephEarth" (row_at 1 0)) = Ok ("Signal Delay: " +:+ txt +:+ " s") /\
    parse_fixed txt = Some v /\ (Qabs (v - delta (row_at 1 0) * AU_KM / C_KM_S) <= 1 # 2000)%Q.
Proof. split; [reflexivity | apply GetSignalDelay_accuracy; reflexivity]. Defined.

(** Europa Clipper, launched 2024-10-15: on the hundredth day after launch
    the status bar says "Mission day: 100". *)
Lemma GetMissionDays_count_witness :
  ({[ "launch_date" := VDate (mkdate 2024 10 15) ]} : pydict) !! "launch_date"
    = Some (VDate (mkdate 2024 10 15)) /\
  valid_md (mkdate 2024 10 15) = true /\
  GetMissionDays {[ "launch_date" := VDate (mkdate 2024 10 15) ]}
    (Nat.iter 100 next_day (mkdate 2024 10 15)) = Ok ("Mission day: " +:+ show_int 100).
Proof.
  split; [reflexivity | split; [reflexivity|]].
  apply (GetMissionDays_count _ _ 100); reflexivity.
Defined.
