(* ===== verification/Run.v ===== *)
(** * Run: the script's execution, from [main] to the saved figure

    The script keeps its state in three places, and this file models all
    of them.  A [world] holds:
    - [heap]: the list [targets] of body dicts, in which position [i] is
      the identity of the dict [targets[i]];
    - [tracked]: the global [targetSpacecraft], which is [None] or the
      identity of a dict of the heap.  It is an alias: [GetAstroData]
      writes through it, and [PlotTargets] writes through the list, into
      the same dicts;
    - [out]: what the run shows to the outside, in order.  That is the
      lines printed, the requests made to the ephemeris provider, the
      scene commands given to matplotlib, and the final
      [savefig]/[show].

    Code that runs is a computation of the state and exception monad [st]
    of the prelude, over [world] and [stop].  A [stop] is either Python's
    [SystemExit] ([exit(code)]) or an uncaught exception.
    [GetAstroData]'s [except Exception] catches only the latter, as in
    Python.

    The Section is parameterised by the provider (the class
    [EphemerisProvider]) and by [today], the value of [date.today()].
    Every theorem below holds for every provider and every date.

    The generator expressions of [FindTargetSpacecraft] and
    [GetRandomSpacecraft] subscript each dict, and a missing key raises:
    [find_index_py], [count_py] and [select_py] are the searches with
    that failure, lazy where the generator is.

    Definitions and the lines they model:
    - [GetAstroData] (160-199);
    - [plot_target] and [PlotTargets] (219-302);
    - [PlotSpacecraftTail] (305-329);
    - [PlotTitleLegendStatusBar] (359-382);
    - [PrintOrSave] (385-391);
    - [Plot] (394-412);
    - [ListSpacecraft] (415-420);
    - [FindTargetSpacecraft] (141-146);
    - [GetRandomSpacecraft] (148-156);
    - [main] (423-473), with the parsed arguments as [Args] and the draw
      of [random.randrange(count)] as an input.

    Theorems:
    - the command-line outcomes that need no provider ([--list] and an
      unknown name);
    - complete runs against [total_provider f g], a provider that
      answers every request, with [f] and [g] left arbitrary.  They give
      the exact request sequence for every spacecraft of the catalog, the
      failure for every planet, and the random selection.  These are
      proved by evaluating the run once per catalog entry;
    - no degraded output, for every provider: the figure is written
      exactly when the run completes. *)

From stdpp Require Import base list gmap strings.
From Stdlib Require Import ZArith QArith Reals.
From S2P Require Import Prelude Format Dates Catalog Ephemeris PyObj Geometry Telemetry.
Local Open Scope cw_scope.

(** What matplotlib is asked to draw. *)
Inductive scene_cmd :=
| Figure (width height : Q)
| Axes (xlimit ylimit : Z)
| StarField (xlimit ylimit : Z)
| SunMarker
| PlanetMarker (label : string) (pos : R * R) (sz : Z) (col : string)
| OrbitPath (pts : list (R * R))
| SpacecraftMarker (label : string) (pos : R * R)
| NameText (txt : string) (pos : R * R)
| TailPath (pts : list (R * R))
| TitleText (txt : string)
| LegendBox
| StatusText (txt : string)
| TightLayout.

Inductive req_kind := ReqEphemerides | ReqElements.

Inductive event :=
| EvPrint (line : string)
| EvRequest (k : req_kind) (q : Query)
| EvDraw (c : scene_cmd)
| EvSave (filename : string)
| EvShow.

Record world := mkworld {
  heap : list pydict;
  tracked : option nat;
  out : list event
}.

Inductive stop :=
| SysExit (code : Z)
| Raised (e : exn).

Abbreviation M A := (st world stop A).

(** The namespace [parser.parse_args()] returns ([args.save],
    [args.output], [args.list], [args.spacecraft], [args.random]). *)
Record Args := mkargs {
  args_save : bool;
  args_output : string;
  args_list : bool;
  args_spacecraft : string;
  args_random : bool
}.

(** The namespace of a command line without options: the [default=]s
    and the [store_true] flags of the [add_argument] calls. *)
Definition default_args : Args :=
  mkargs false "clipper_watch.png" false "Europa Clipper" false.

(** [target["name"] == name]: the subscript raises [KeyError] on a dict
    without a name; [==] on a value of another kind is [False]. *)
Definition dict_has_name (nm : string) (d : pydict) : result exn bool :=
  let? v := getitem d "name" in Ok (bool_decide (v = VStr nm)).

(** [target["isSpacecraft"] is True] *)
Definition dict_is_spacecraft (d : pydict) : result exn bool :=
  let? v := getitem d "isSpacecraft" in Ok (bool_decide (v = VBool true)).

(** [next((x for x in l if p(x)), None)] as a position: the generator
    tests the items in order and stops at the first match, so a test that
    raises before it propagates. *)
Fixpoint find_index_py {A} (p : A -> result exn bool) (l : list A) : result exn (option nat) :=
  match l with
  | [] => Ok None
  | x :: l' =>
      let? b := p x in
      if b then Ok (Some 0%nat) else let? r := find_index_py p l' in Ok (S <$> r)
  end.

(** [sum(1 for x in l if p(x))]: every item is tested. *)
Fixpoint count_py {A} (p : A -> result exn bool) (l : list A) : result exn nat :=
  match l with
  | [] => Ok 0%nat
  | x :: l' =>
      let? b := p x in
      let? c := count_py p l' in
      Ok (if b then S c else c)
  end.

(** [for i, x in enumerate(x for x in l if p(x)): if i == n: return x]:
    the lazy generator is tested only up to the selected item. *)
Fixpoint select_py {A} (p : A -> result exn bool) (i n : nat) (l : list A) : result exn (option A) :=
  match l with
  | [] => Ok None
  | x :: l' =>
      let? b := p x in
      if b then (if Nat.eqb i n then Ok (Some x) else select_py p (S i) n l')
      else select_py p i n l'
  end.

(** [obj != targetSpacecraft], Python's value comparison of dicts. *)
Definition dict_ne (w : world) (i : nat) : bool :=
  match tracked w with
  | None => true
  | Some j =>
      match heap w !! i, heap w !! j with
      | Some d1, Some d2 => negb (bool_decide (d1 = d2))
      | _, _ => true
      end
  end.

Definition NONE_SUBSCRIPT : string := "'NoneType' object is not subscriptable".
Definition EMPTY_TABLE : string := "index 0 out of range for table with length 0".

Section Run.
Context `{Prov : EphemerisProvider}.
Variable today : date.

Definition emit (e : event) : M unit :=
  smodify (fun w => mkworld (heap w) (tracked w) (out w ++ [e])).

Definition raise {A} (e : exn) : M A := sthrow (Raised e).
Definition sys_exit {A} (code : Z) : M A := sthrow (SysExit code).

Definition lift {A} (r : result exn A) : M A :=
  match r with
  | Ok a => sret a
  | Err e => raise e
  end.

(** Dereference the object [i] of the heap. *)
Definition load (i : nat) : M pydict :=
  w <- sget;;
  match heap w !! i with
  | Some d => sret d
  | None => raise (TypeError NONE_SUBSCRIPT)
  end.

(** [targets[i][k] = v] *)
Definition setitem (i : nat) (k : string) (v : pyval) : M unit :=
  d <- load i;;
  smodify (fun w => mkworld (<[i := <[k := v]> d]> (heap w)) (tracked w) (out w)).

Definition jpl_id (nm : string) : M string :=
  match MapNameToJplId nm with
  | Some id => sret id
  | None => raise (KeyError nm)
  end.

Definition call_ephemerides (q : Query) : M (list Row) :=
  emit (EvRequest ReqEphemerides q);;
  match ephemerides q with
  | Ok rows => sret rows
  | Err m => raise (ProviderError m)
  end.

Definition call_elements (q : Query) : M (list Elements) :=
  emit (EvRequest ReqElements q);;
  match elements q with
  | Ok els => sret els
  | Err m => raise (ProviderError m)
  end.

(** [table[0]] *)
Definition index0 {A} (l : list A) : M A :=
  match l with
  | x :: _ => sret x
  | [] => raise (IndexError EMPTY_TABLE)
  end.

(** The [try] block of [GetAstroData]. *)
Definition GetAstroData_try (i : nat) (observer : string) (getDataSinceLaunch : bool) : M unit :=
  loc <- jpl_id observer;;
  let observerLocation := "500@" +:+ loc in
  q <- (if getDataSinceLaunch then
          let stop := isoformat today in
          target <- load i;;
          launch <- lift (get_date target "launch_date");;
          let start := isoformat launch in
          nm <- lift (get_str target "name");;
          id <- jpl_id nm;;
          sret (mkquery id observerLocation (Some (start, stop, "7d")))
        else
          target <- load i;;
          nm <- lift (get_str target "name");;
          id <- jpl_id nm;;
          sret (mkquery id observerLocation None));;
  eph <- call_ephemerides q;;
  first <- index0 eph;;
  setitem i "targetname" (VStr (label_of_targetname (targetname first)));;
  (if getDataSinceLaunch then setitem i ("ephSinceLaunch" +:+ observer) (VTable eph)
   else setitem i ("eph" +:+ observer) (VRow first));;
  target <- load i;;
  isSc <- lift (get_bool target "isSpacecraft");;
  if isSc then sret tt
  else
    els <- call_elements q;;
    el <- index0 els;;
    setitem i "el" (VElems el).

(** [except Exception as e: print(f"JPL Get error: {e}"); exit(1)];
    [SystemExit] is not an [Exception] and passes through. *)
Definition GetAstroData (i : nat) (observer : string) (getDataSinceLaunch : bool) : M unit :=
  scatch (GetAstroData_try i observer getDataSinceLaunch)
    (fun s => match s with
              | Raised e => emit (EvPrint ("JPL Get error: " +:+ exn_str e));; sys_exit 1
              | SysExit c => sys_exit c
              end).

Definition FindTargetSpacecraft (nm : string) : M (option nat) :=
  w <- sget;;
  found <- lift (find_index_py (dict_has_name nm) (heap w));;
  smodify (fun w => mkworld (heap w) found (out w));;
  sret found.

(** [n] is the value [random.randrange(count)] returned. *)
Definition GetRandomSpacecraft (n : nat) : M (option nat) :=
  w <- sget;;
  count <- lift (count_py dict_is_spacecraft (heap w));;
  if Nat.eqb count 0 then raise (ValueError "empty range in randrange(0)")
  else
    found <- lift (select_py (fun it => dict_is_spacecraft it.2) 0 n (indexed (heap w)));;
    match found with
    | Some (idx, d) =>
        nm <- lift (get_str d "name");;
        emit (EvPrint ("Selected " +:+ nm +:+ "!"));;
        smodify (fun w => mkworld (heap w) (Some idx) (out w));;
        sret (Some idx)
    | None => sret None
    end.

(** One pass of the loop of [PlotTargets]. *)
Definition plot_target (i : nat) : M unit :=
  obj <- load i;;
  isSc <- lift (get_bool obj "isSpacecraft");;
  w <- sget;;
  if isSc && dict_ne w i then sret tt
  else
    GetAstroData i "Sun" false;;
    obj <- load i;;
    eph <- lift (get_row obj "ephSun");;
    let pos := project_row eph in
    if negb isSc then
      sz <- lift (get_int obj "size");;
      col <- lift (get_str obj "color");;
      label <- lift (get_str obj "targetname");;
      emit (EvDraw (PlanetMarker label pos sz col));;
      el <- lift (get_elems obj "el");;
      emit (EvDraw (OrbitPath (reconstructOrbit el)))
    else
      label <- lift (get_str obj "targetname");;
      emit (EvDraw (SpacecraftMarker label pos));;
      nm <- lift (get_str obj "name");;
      emit (EvDraw (NameText nm ((fst pos + 2 / 10)%R, (snd pos + 2 / 10)%R))).

Definition PlotTargets : M unit :=
  emit (EvDraw SunMarker);;
  w <- sget;;
  sfor (seq 0 (length (heap w))) plot_target.

Definition PlotSpacecraftTail : M unit :=
  w <- sget;;
  match tracked w with
  | None => emit (EvPrint ("JPL Get error: " +:+ NONE_SUBSCRIPT));; sys_exit 1
  | Some i =>
      GetAstroData i "Sun" true;;
      obj <- load i;;
      weeks <- lift (get_table obj "ephSinceLaunchSun");;
      emit (EvDraw (TailPath (buildTrajectory weeks)))
  end.

Definition PlotTitleLegendStatusBar : M unit :=
  w <- sget;;
  match tracked w with
  | None => raise (TypeError NONE_SUBSCRIPT)
  | Some i =>
      obj <- load i;;
      nm <- lift (get_str obj "name");;
      emit (EvDraw (TitleText (nm +:+ " Mission Status")));;
      emit (EvDraw LegendBox);;
      GetAstroData i "Earth" false;;
      GetAstroData i "Europa" false;;
      obj <- load i;;
      message <- lift (status_message obj today);;
      emit (EvDraw (StatusText message))
  end.

Definition PrintOrSave (save_on_disk : bool) (filename : string) : M unit :=
  if save_on_disk then
    emit (EvDraw TightLayout);;
    emit (EvSave filename);;
    emit (EvPrint "Image saved.")
  else emit EvShow.

(** [plt.subplots(figsize=(19.2, 10.8))], the equal-aspect axes without
    frame limited to [[-16, 16] x [-9, 9]], the star field, then the
    plotting functions in order. *)
Definition Plot (save_on_disk : bool) (filename : string) : M unit :=
  emit (EvDraw (Figure (Qmake 192 10) (Qmake 108 10)));;
  emit (EvDraw (Axes 16 9));;
  emit (EvDraw (StarField 16 9));;
  PlotTargets;;
  PlotSpacecraftTail;;
  PlotTitleLegendStatusBar;;
  PrintOrSave save_on_disk filename.

Definition ListSpacecraft : M unit :=
  emit (EvPrint "Listing spacecraft...");;
  w <- sget;;
  sfor (heap w) (fun target =>
    isSc <- lift (get_bool target "isSpacecraft");;
    if isSc then nm <- lift (get_str target "name");; emit (EvPrint nm) else sret tt);;
  sys_exit 0.

Definition main (args : Args) (draw : nat) : M unit :=
  emit (EvPrint "Starting ClipperWatch...");;
  (if args_list args then ListSpacecraft else sret tt);;
  (if args_random args then
     _ <- GetRandomSpacecraft draw;; sret tt
   else
     found <- FindTargetSpacecraft (args_spacecraft args);;
     match found with
     | None => emit (EvPrint ("Spacecraft " +:+ args_spacecraft args +:+ " not found!"));; sys_exit 1
     | Some _ => sret tt
     end);;
  (if args_save args then emit (EvPrint ("Mode: Save to disk -> " +:+ args_output args))
   else emit (EvPrint "Mode: Interactive Window"));;
  Plot (args_save args) (args_output args).

End Run.

(** The state when [main()] starts: the catalog's dicts, no target. *)
Definition init_world : world := mkworld (target_dict <$> targets) None [].

Definition run `{EphemerisProvider} (today : date) (args : Args) (draw : nat) : result stop unit * world :=
  main today args draw init_world.

(** The provider requests of an output log, in order. *)
Definition requests (evs : list event) : list (req_kind * Query) :=
  omap (fun e => match e with EvRequest k q => Some (k, q) | _ => None end) evs.

(** Whether the figure was written out ([savefig] or [show]). *)
Definition figure_output (e : event) : bool :=
  match e with EvSave _ | EvShow => true | _ => false end.

(** ** The heap at start-up *)

Lemma dict_has_name_target (nm : string) (t : target) :
  dict_has_name nm (target_dict t) = Ok (bool_decide (name t = nm)).
Proof.
  unfold dict_has_name, getitem. rewrite target_dict_name. cbn [rbind]. f_equal.
  apply bool_decide_ext. split; [congruence | intros ->; reflexivity].
Qed.

(** Searching the dicts of the catalog literals never raises, and finds
    what the search of the catalog finds. *)
Lemma find_index_py_targets (nm : string) (l : list target) :
  find_index_py (dict_has_name nm) (target_dict <$> l) =
  Ok (find_index (fun t => bool_decide (name t = nm)) l).
Proof.
  induction l as [|t l IH]; [reflexivity|]. cbn [fmap list_fmap find_index_py find_index].
  rewrite dict_has_name_target. cbn [rbind]. destruct (bool_decide _); [reflexivity|].
  rewrite IH. reflexivity.
Qed.

Lemma find_in_init_heap (nm : string) :
  find_index_py (dict_has_name nm) (target_dict <$> targets) = Ok (find_target nm).
Proof. apply find_index_py_targets. Qed.

(** ** Command-line outcomes that need no ephemeris *)

(** C10: an unknown body name ends the run with exit status 1 before any
    request to the provider: the script prints its banner and
    "Spacecraft <name> not found!", and nothing else. *)
Theorem run_unknown_spacecraft `{EphemerisProvider} (today : date) (args : Args) (draw : nat) :
  args_list args = false -> args_random args = false ->
  args_spacecraft args ∉ name <$> targets ->
  run today args draw =
  (Err (SysExit 1),
   mkworld (target_dict <$> targets) None
     [EvPrint "Starting ClipperWatch...";
      EvPrint ("Spacecraft " +:+ args_spacecraft args +:+ " not found!")]).
Proof.
  intros Hl Hr Hn. unfold run, main. rewrite Hl, Hr.
  cbv beta iota zeta delta [sbind sret emit smodify FindTargetSpacecraft sget heap tracked out
    init_world].
  rewrite find_in_init_heap, (find_target_None _ Hn). reflexivity.
Qed.

(** C11: [--list] prints the spacecraft of the catalog, in catalog order,
    and exits with status 0 before any request to the provider. *)
Theorem run_list `{EphemerisProvider} (today : date) (args : Args) (draw : nat) :
  args_list args = true ->
  run today args draw =
  (Err (SysExit 0),
   mkworld (target_dict <$> targets) None
     (EvPrint "Starting ClipperWatch..." :: EvPrint "Listing spacecraft..."
      :: ((fun t => EvPrint (name t)) <$> filter (fun t => isSpacecraft t = true) targets))).
Proof. intros Hl. unfold run, main. rewrite Hl. vm_compute. reflexivity. Qed.

(** The body names of the witnesses below: a spacecraft missing from the
    catalog, and a date of the mission. *)
Definition witness_args_unknown : Args := mkargs false "" false "Rosetta" false.
Definition witness_args_list : Args := mkargs false "" true "Europa Clipper" false.
Definition witness_day : date := mkdate 2026 11 9.

Lemma run_unknown_spacecraft_witness :
  fst (@run (constant_provider [] []) witness_day witness_args_unknown 0) = Err (SysExit 1).
Proof.
  rewrite (@run_unknown_spacecraft (constant_provider [] []) witness_day witness_args_unknown 0
             eq_refl eq_refl ltac:(apply (bool_decide_unpack _); vm_compute; exact I)).
  reflexivity.
Defined.

Lemma run_list_witness :
  fst (@run (constant_provider [] []) witness_day witness_args_list 0) = Err (SysExit 0).
Proof.
  rewrite (@run_list (constant_provider [] []) witness_day witness_args_list 0 eq_refl).
  reflexivity.
Defined.

(** ** Complete runs against a provider that answers every request *)

(** The [Horizons] query that [GetAstroData(target, observer,
    getDataSinceLaunch)] builds for a body of the catalog. *)
Definition astro_query (today : date) (t : target) (observer : string) (since_launch : bool) : Query :=
  mkquery (default "" (MapNameToJplId (name t)))
    ("500@" +:+ default "" (MapNameToJplId observer))
    (if since_launch then
       match launch_date t with
       | Some ld => Some (isoformat ld, isoformat today, "7d")
       | None => None
       end
     else None).

(** The requests of [PlotTargets] when [sc] is the tracked body: the
    ephemerides and elements of each planet, and the ephemerides of [sc]
    alone among the spacecraft, in catalog order. *)
Definition plot_requests (today : date) (sc : target) : list (req_kind * Query) :=
  flat_map (fun t =>
    if isSpacecraft t then
      if bool_decide (t = sc) then [(ReqEphemerides, astro_query today t "Sun" false)] else []
    else [(ReqEphemerides, astro_query today t "Sun" false);
          (ReqElements, astro_query today t "Sun" false)]) targets.

(** Then [PlotSpacecraftTail] asks for the weekly positions since launch,
    and [PlotTitleLegendStatusBar] for the views from Earth and Europa. *)
Definition expected_requests (today : date) (sc : target) : list (req_kind * Query) :=
  plot_requests today sc ++
  [(ReqEphemerides, astro_query today sc "Sun" true);
   (ReqEphemerides, astro_query today sc "Earth" false);
   (ReqEphemerides, astro_query today sc "Europa" false)].

Ltac catalog_cases Hin :=
  apply list_elem_of_In in Hin; unfold targets in Hin; cbn [In] in Hin;
  repeat destruct Hin as [<-|Hin]; try contradiction.

(** C1: tracking a spacecraft of the catalog by name, against a provider
    whose requests all succeed, the run completes, and the requests it
    makes are exactly [expected_requests], in that order: each planet's
    ephemerides and elements, the tracked spacecraft's position (no other
    spacecraft is queried), its trajectory since launch, and its view
    from Earth and from Europa. *)
Theorem run_spacecraft_requests f g (today : date) (args : Args) (draw : nat) (t : target) :
  t ∈ targets -> isSpacecraft t = true ->
  args_list args = false -> args_random args = false -> args_spacecraft args = name t ->
  fst (@run (total_provider f g) today args draw) = Ok tt /\
  requests (out (snd (@run (total_provider f g) today args draw))) = expected_requests today t.
Proof.
  intros Hin Hsc Hl Hr Hn. destruct args as [sv o l nm rnd]; cbn in Hl, Hr, Hn; subst.
  catalog_cases Hin; try (vm_compute in Hsc; discriminate Hsc); destruct sv; split; vm_eq.
Qed.

(** C3: naming a planet with [--spacecraft] is accepted by
    [FindTargetSpacecraft], and the run then fails: the planets are
    drawn, but [PlotSpacecraftTail] reads the planet's missing
    ["launch_date"], prints "JPL Get error: 'launch_date'" and exits with
    status 1, after the requests of [PlotTargets] only. *)
Theorem run_planet_target f g (today : date) (args : Args) (draw : nat) (t : target) :
  t ∈ targets -> isSpacecraft t = false ->
  args_list args = false -> args_random args = false -> args_spacecraft args = name t ->
  fst (@run (total_provider f g) today args draw) = Err (SysExit 1) /\
  last (out (snd (@run (total_provider f g) today args draw))) =
    Some (EvPrint "JPL Get error: 'launch_date'") /\
  requests (out (snd (@run (total_provider f g) today args draw))) = plot_requests today t.
Proof.
  intros Hin Hsc Hl Hr Hn. destruct args as [sv o l nm rnd]; cbn in Hl, Hr, Hn; subst.
  catalog_cases Hin; try (vm_compute in Hsc; discriminate Hsc); destruct sv; repeat split; vm_eq.
Qed.

(** C4: with [--random], a draw [n] below the number of spacecraft tracks
    the spacecraft [random_pick n] selects, and the run completes with
    that spacecraft's [expected_requests]. *)
Theorem run_random_requests f g (today : date) (args : Args) (draw : nat) :
  args_list args = false -> args_random args = true -> (draw < spacecraft_count)%nat ->
  exists i t, random_pick draw = Some (i, t) /\
    fst (@run (total_provider f g) today args draw) = Ok tt /\
    requests (out (snd (@run (total_provider f g) today args draw))) = expected_requests today t.
Proof.
  intros Hl Hr Hd. destruct args as [sv o l nm rnd]; cbn in Hl, Hr; subst.
  do 12 (destruct draw as [|draw];
         [do 2 eexists; split; [reflexivity|]; destruct sv; split; vm_eq|]).
  vm_compute in Hd. lia.
Qed.

(** C7: when every request to the provider raises with the message [m],
    any run that tracks a catalog body makes exactly one request, the
    ephemerides of the first body of the catalog, then prints
    "JPL Get error: <m>" and exits with status 1. *)
Theorem run_provider_down (m : string) (today : date) (args : Args) (draw : nat) (t : target) :
  t ∈ targets -> args_list args = false -> args_random args = false -> args_spacecraft args = name t ->
  fst (@run (failing_provider m) today args draw) = Err (SysExit 1) /\
  requests (out (snd (@run (failing_provider m) today args draw))) =
    [(ReqEphemerides, astro_query today (planet "Mercury" "#A5A5A5" 25) "Sun" false)] /\
  last (out (snd (@run (failing_provider m) today args draw))) =
    Some (EvPrint ("JPL Get error: " +:+ m)).
Proof.
  intros Hin Hl Hr Hn. destruct args as [sv o l nm rnd]; cbn in Hl, Hr, Hn; subst.
  catalog_cases Hin; destruct sv; repeat split; vm_eq.
Qed.

(** A provider that answers every request with one row and one set of
    elements, and the command lines of the witnesses. *)
Definition witness_row : Row := mkrow "Europa Clipper (spacecraft)" "2026-Nov-09 00:00" 0 0 1 0 1 0.
Definition witness_elements : Elements := mkelements 1 0 0 0.
Definition witness_eph (q : Query) : Row * list Row := (witness_row, []).
Definition witness_el (q : Query) : Elements * list Elements := (witness_elements, []).
Definition witness_args_clipper : Args := mkargs true "clipper_watch.png" false "Europa Clipper" false.
Definition witness_args_mars : Args := mkargs true "clipper_watch.png" false "Mars" false.
Definition witness_args_random : Args := mkargs false "clipper_watch.png" false "Europa Clipper" true.

Lemma run_spacecraft_requests_witness :
  fst (@run (total_provider witness_eph witness_el) witness_day witness_args_clipper 0) = Ok tt.
Proof.
  apply (proj1 (run_spacecraft_requests witness_eph witness_el witness_day witness_args_clipper 0
    (spacecraft "Europa Clipper" "#E27B58" 40 2024 10 15)
    ltac:(apply (bool_decide_unpack _); vm_compute; exact I) eq_refl eq_refl eq_refl eq_refl)).
Defined.

Lemma run_planet_target_witness :
  fst (@run (total_provider witness_eph witness_el) witness_day witness_args_mars 0) = Err (SysExit 1).
Proof.
  apply (proj1 (run_planet_target witness_eph witness_el witness_day witness_args_mars 0
    (planet "Mars" "#E27B58" 40)
    ltac:(apply (bool_decide_unpack _); vm_compute; exact I) eq_refl eq_refl eq_refl eq_refl)).
Defined.

Lemma run_provider_down_witness :
  fst (@run (failing_provider "timeout") witness_day witness_args_clipper 0) = Err (SysExit 1).
Proof.
  apply (proj1 (run_provider_down "timeout" witness_day witness_args_clipper 0
    (spacecraft "Europa Clipper" "#E27B58" 40 2024 10 15)
    ltac:(apply (bool_decide_unpack _); vm_compute; exact I) eq_refl eq_refl eq_refl)).
Defined.

Lemma run_random_requests_witness :
  exists i t, random_pick 3 = Some (i, t) /\
    fst (@run (total_provider witness_eph witness_el) witness_day witness_args_random 3) = Ok tt.
Proof.
  destruct (run_random_requests witness_eph witness_el witness_day witness_args_random 3
    eq_refl eq_refl ltac:(vm_compute; lia)) as [i [t [H1 [H2 _]]]].
  exists i, t. split; [exact H1 | exact H2].
Defined.

(** ** No degraded output: the figure is written only by a completed run *)

Definition no_figure (w : world) : Prop := Forall (fun e => figure_output e = false) (out w).

(** A program that either completes with the figure written, or stops
    with none written. *)
Definition ends_with_figure (c : M unit) : Prop :=
  forall w, no_figure w ->
    match c w with
    | (Ok _, w') => exists e, e ∈ out w' /\ figure_output e = true
    | (Err _, w') => no_figure w'
    end.

Section Output.
Context `{Prov : EphemerisProvider}.
Variable today : date.

Lemma emit_no_figure (e : event) : figure_output e = false -> preserves no_figure (emit e).
Proof.
  intros He w Hw. unfold no_figure in *. cbn.
  apply Forall_app. split; [exact Hw | constructor; [exact He | constructor]].
Qed.

Lemma modify_no_figure (f : world -> world) :
  (forall w, out (f w) = out w) -> preserves no_figure (@smodify world stop f).
Proof. intros Hf. apply preserves_modify. intros w Hw. unfold no_figure. now rewrite Hf. Qed.

Ltac nofig_step :=
  first [ preserves_step
        | apply emit_no_figure; reflexivity
        | apply modify_no_figure; reflexivity ].

Lemma GetAstroData_no_figure i observer sl : preserves no_figure (GetAstroData today i observer sl).
Proof.
  unfold GetAstroData, GetAstroData_try, setitem, lift, load, jpl_id, call_ephemerides,
    call_elements, index0, raise, sys_exit.
  repeat nofig_step.
Qed.

Lemma plot_target_no_figure i : preserves no_figure (plot_target today i).
Proof.
  unfold plot_target, lift, load, raise.
  repeat first [ nofig_step | apply GetAstroData_no_figure ].
Qed.

Lemma PlotTargets_no_figure : preserves no_figure (PlotTargets today).
Proof. unfold PlotTargets. repeat first [ nofig_step | apply plot_target_no_figure ]. Qed.

Lemma PlotSpacecraftTail_no_figure : preserves no_figure (PlotSpacecraftTail today).
Proof.
  unfold PlotSpacecraftTail, lift, load, raise, sys_exit.
  repeat first [ nofig_step | apply GetAstroData_no_figure ].
Qed.

Lemma PlotTitleLegendStatusBar_no_figure : preserves no_figure (PlotTitleLegendStatusBar today).
Proof.
  unfold PlotTitleLegendStatusBar, lift, load, raise.
  repeat first [ nofig_step | apply GetAstroData_no_figure ].
Qed.

Lemma selection_no_figure nm n :
  preserves no_figure ListSpacecraft /\ preserves no_figure (FindTargetSpacecraft nm) /\
  preserves no_figure (GetRandomSpacecraft n).
Proof.
  unfold ListSpacecraft, FindTargetSpacecraft, GetRandomSpacecraft, lift, raise, sys_exit.
  split; [|split]; repeat nofig_step.
Qed.

Lemma ends_bind {A} (c : M A) (f : A -> M unit) :
  preserves no_figure c -> (forall a, ends_with_figure (f a)) -> ends_with_figure (sbind c f).
Proof.
  intros Hc Hf w Hw. unfold sbind. specialize (Hc w Hw).
  destruct (c w) as [[a|e] w'] eqn:E; cbn in Hc; [apply Hf, Hc | exact Hc].
Qed.

Lemma ends_PrintOrSave (save_on_disk : bool) (filename : string) :
  ends_with_figure (PrintOrSave save_on_disk filename).
Proof.
  intros w _. destruct save_on_disk; cbn.
  - exists (EvSave filename). split; [|reflexivity]. rewrite !elem_of_app. left; right. left.
  - exists EvShow. split; [|reflexivity]. rewrite elem_of_app. right. left.
Qed.

End Output.

(** C2: no degraded output: a run writes the figure ([savefig] or [show])
    exactly when it completes; any failure (exit, uncaught exception,
    provider error) ends the run with no figure written. *)
Theorem run_figure_iff_success `{EphemerisProvider} (today : date) (args : Args) (draw : nat) :
  fst (run today args draw) = Ok tt <->
  exists e, e ∈ out (snd (run today args draw)) /\ figure_output e = true.
Proof.
  assert (Hends : ends_with_figure (main today args draw)).
  { destruct (selection_no_figure (args_spacecraft args) draw) as [Hl [Hf Hr]].
    unfold main, Plot.
    repeat first
      [ apply ends_PrintOrSave
      | apply ends_bind; [|intros ?]
      | apply emit_no_figure; reflexivity
      | apply PlotTargets_no_figure | apply PlotSpacecraftTail_no_figure
      | apply PlotTitleLegendStatusBar_no_figure
      | assumption
      | unfold sys_exit; preserves_step ]. }
  pose proof (Hends init_world (Forall_nil_2 _)) as H0.
  unfold run. destruct (main today args draw init_world) as [[[]|s] w]; cbn.
  - split; [intros _; exact H0 | reflexivity].
  - split; [discriminate|]. intros [e [He Hfig]].
    unfold no_figure in H0. rewrite Forall_forall in H0. rewrite (H0 e He) in Hfig. discriminate.
Qed.
