(* ===== verification/Heap.v ===== *)
(** * Heap: the invariant of the body dicts and of [targetSpacecraft]

    [GetAstroData] is the only code that writes into a body dict
    (src/clipperwatch.py lines 187-196), and [FindTargetSpacecraft] and
    [GetRandomSpacecraft] are the only code that set the global
    [targetSpacecraft] (lines 143 and 155).  The invariant [world_wf] says
    what every reachable world looks like:
    - the heap holds one dict per catalog entry, in catalog order;
    - each dict still carries its literal's catalog fields ([name],
      [color], [size], [isSpacecraft], [launch_date]);
    - every other key is one that [GetAstroData] writes, holding a value
      of the kind the readers expect;
    - [targetSpacecraft] is either unset or names a position of the heap.

    Every operation of Run.v preserves it, whatever the provider answers
    and wherever it raises.  Two consequences are proved.  The readers of
    the catalog fields never fail on a wrong kind.  The test
    [obj != targetSpacecraft] of [PlotTargets] (line 224) compares dicts
    by value, and it agrees with comparing them by identity, because the
    catalog names are distinct and no code rewrites a name. *)

From stdpp Require Import base list gmap strings.
From Stdlib Require Import Ascii ZArith QArith.
From S2P Require Import Prelude Dates Catalog Ephemeris PyObj Run.
Local Open Scope cw_scope.

(** The keys [GetAstroData] writes and the kinds of their values. *)
Definition dyn_ok (k : string) (v : pyval) : Prop :=
  (k = "targetname" /\ exists s, v = VStr s) \/
  (exists o r, k = "eph" +:+ o /\ v = VRow r) \/
  (exists o rs, k = "ephSinceLaunch" +:+ o /\ v = VTable rs) \/
  (k = "el" /\ exists e, v = VElems e).

(** A body dict of the catalog entry [t]. *)
Definition dict_wf (t : target) (d : pydict) : Prop :=
  (forall k, k ∈ static_keys -> d !! k = target_dict t !! k) /\
  (forall k v, d !! k = Some v -> k ∉ static_keys -> dyn_ok k v).

Definition world_wf (w : world) : Prop :=
  Forall2 dict_wf targets (heap w) /\
  (forall j, tracked w = Some j -> (j < length targets)%nat).

(** ** The keys *)

Ltac not_static :=
  unfold static_keys; intros H;
  repeat (apply elem_of_cons in H as [H|H]; [discriminate H|]); exact (not_elem_of_nil _ H).

Lemma e_key_not_static (s : string) : String "e"%char s ∉ static_keys.
Proof. not_static. Qed.

Lemma targetname_not_static : "targetname" ∉ static_keys.
Proof. not_static. Qed.

#[export] Hint Resolve e_key_not_static targetname_not_static : cw.

(** The literal of a catalog entry has only the catalog fields. *)
Lemma target_dict_static (t : target) k v : target_dict t !! k = Some v -> k ∈ static_keys.
Proof.
  unfold target_dict, static_keys. intros Hl.
  destruct (launch_date t); rewrite ?lookup_insert in Hl;
    repeat (case_decide; [subst; set_solver|]); rewrite ?lookup_insert in Hl;
    repeat (case_decide; [subst; set_solver|]); rewrite ?lookup_empty in Hl; discriminate.
Qed.

(** ** The dicts *)

Lemma dict_wf_init (t : target) : dict_wf t (target_dict t).
Proof.
  split; [reflexivity|]. intros k v Hl Hk. exfalso. exact (Hk (target_dict_static t k v Hl)).
Qed.

Lemma dict_wf_insert (t : target) (d : pydict) k v :
  dict_wf t d -> k ∉ static_keys -> dyn_ok k v -> dict_wf t (<[k := v]> d).
Proof.
  intros [Hs Hd] Hk Hv. split.
  - intros k' Hk'. rewrite lookup_insert_ne by (intros ->; contradiction). auto.
  - intros k' v' Hl Hk'. destruct (decide (k = k')) as [<-|Hne].
    + rewrite lookup_insert_eq in Hl. congruence.
    + rewrite lookup_insert_ne in Hl by exact Hne. auto.
Qed.

Lemma dict_wf_name (t : target) (d : pydict) : dict_wf t d -> d !! "name" = Some (VStr (name t)).
Proof.
  intros [Hs _]. rewrite Hs by (unfold static_keys; set_solver). apply target_dict_name.
Qed.

Lemma world_wf_lookup (w : world) (i : nat) (d : pydict) :
  world_wf w -> heap w !! i = Some d -> exists t, targets !! i = Some t /\ dict_wf t d.
Proof. intros [Hh _] Hi. exact (Forall2_lookup_r _ _ _ _ _ Hh Hi). Qed.

Lemma world_wf_length (w : world) : world_wf w -> length (heap w) = length targets.
Proof. intros [Hh _]. symmetry. exact (Forall2_length _ _ _ Hh). Qed.

Lemma init_world_wf : world_wf init_world.
Proof.
  split; [|discriminate]. cbn [heap init_world].
  apply Forall2_fmap_r, Forall_Forall2_diag, Forall_forall. intros t _. apply dict_wf_init.
Qed.

Lemma dyn_targetname (s : string) : dyn_ok "targetname" (VStr s).
Proof. left. eauto. Qed.

Lemma dyn_eph (o : string) (r : Row) : dyn_ok ("eph" +:+ o) (VRow r).
Proof. right. left. eauto. Qed.

Lemma dyn_since (o : string) (rs : list Row) : dyn_ok ("ephSinceLaunch" +:+ o) (VTable rs).
Proof. right. right. left. eauto. Qed.

Lemma dyn_el (e : Elements) : dyn_ok "el" (VElems e).
Proof. right. right. right. eauto. Qed.

#[export] Hint Resolve dyn_targetname dyn_eph dyn_since dyn_el : cw.

(** The fallible searches return positions and items of the list. *)
Lemma find_index_py_lt {A} (p : A -> result exn bool) (l : list A) (i : nat) :
  find_index_py p l = Ok (Some i) -> (i < length l)%nat.
Proof.
  revert i. induction l as [|x l IH]; intros i; cbn [find_index_py]; [discriminate|].
  destruct (p x) as [[]|e]; cbn [rbind]; [intros [= <-]; cbn; lia| |discriminate].
  destruct (find_index_py p l) as [[j|]|e] eqn:E; cbn [rbind]; try discriminate.
  intros [= <-]. specialize (IH j eq_refl). cbn. lia.
Qed.

Lemma select_py_elem {A} (p : A -> result exn bool) (i n : nat) (l : list A) (x : A) :
  select_py p i n l = Ok (Some x) -> x ∈ l.
Proof.
  revert i. induction l as [|y l IH]; intros i; cbn [select_py]; [discriminate|].
  destruct (p y) as [[]|e]; cbn [rbind]; [|intros H; right; exact (IH i H)|discriminate].
  destruct (Nat.eqb i n); [intros [= <-]; left|intros H; right; exact (IH (S i) H)].
Qed.

(** ** Every operation preserves the invariant *)

Section Preservation.
Context `{Prov : EphemerisProvider}.
Variable today : date.

Lemma emit_wf (e : event) : preserves world_wf (emit e).
Proof. apply preserves_modify. intros w Hw. exact Hw. Qed.

Lemma setitem_wf (i : nat) (k : string) (v : pyval) :
  k ∉ static_keys -> dyn_ok k v -> preserves world_wf (setitem i k v).
Proof.
  intros Hk Hv w Hw. unfold setitem, load. cbv [sbind sget smodify sret raise sthrow].
  destruct (heap w !! i) as [d|] eqn:Hi; cbn [snd heap tracked]; [|exact Hw].
  destruct (world_wf_lookup w i d Hw Hi) as [t [Ht Hd]]. destruct Hw as [Hh Htr].
  split; [|exact Htr]. rewrite <- (list_insert_id targets i t Ht).
  apply Forall2_insert; [exact Hh | apply dict_wf_insert; assumption].
Qed.

Ltac wf_step :=
  first [ preserves_step
        | apply emit_wf
        | apply setitem_wf; [apply e_key_not_static || apply targetname_not_static | auto with cw] ].

Lemma GetAstroData_wf i observer sl : preserves world_wf (GetAstroData today i observer sl).
Proof.
  unfold GetAstroData, GetAstroData_try, lift, load, jpl_id, call_ephemerides,
    call_elements, index0, raise, sys_exit.
  repeat wf_step.
Qed.

Lemma plot_target_wf i : preserves world_wf (plot_target today i).
Proof. unfold plot_target, lift, load, raise. repeat first [ wf_step | apply GetAstroData_wf ]. Qed.

Lemma plots_wf :
  preserves world_wf (PlotTargets today) /\ preserves world_wf (PlotSpacecraftTail today) /\
  preserves world_wf (PlotTitleLegendStatusBar today) /\ preserves world_wf ListSpacecraft.
Proof.
  unfold PlotTargets, PlotSpacecraftTail, PlotTitleLegendStatusBar, ListSpacecraft,
    lift, load, raise, sys_exit.
  split; [|split; [|split]]; repeat first [ wf_step | apply GetAstroData_wf | apply plot_target_wf ].
Qed.

Lemma FindTargetSpacecraft_wf nm : preserves world_wf (FindTargetSpacecraft nm).
Proof.
  intros w Hw. pose proof (world_wf_length w Hw) as Hl.
  unfold FindTargetSpacecraft, lift, raise. cbv [sbind sget smodify sret sthrow].
  destruct (find_index_py _ _) as [found|e] eqn:E; cbn [snd]; [|exact Hw].
  destruct Hw as [Hh _]. split; [exact Hh|]. cbn [tracked]. intros j ->.
  apply find_index_py_lt in E. rewrite Hl in E. exact E.
Qed.

Lemma GetRandomSpacecraft_wf n : preserves world_wf (GetRandomSpacecraft n).
Proof.
  intros w Hw. pose proof (world_wf_length w Hw) as Hl.
  unfold GetRandomSpacecraft, lift, raise. cbv [sbind sget sthrow sret].
  destruct (count_py _ _) as [c|e]; [|exact Hw]. destruct (Nat.eqb c 0); [exact Hw|].
  destruct (select_py _ _ _ _) as [[[idx d]|]|e] eqn:E; [|exact Hw|exact Hw].
  destruct (get_str d "name"); [|exact Hw]. destruct Hw as [Hh _]. cbn. split; [exact Hh|].
  intros j [= <-]. apply select_py_elem, elem_of_indexed, lookup_lt_Some in E.
  rewrite Hl in E. exact E.
Qed.

Lemma main_wf (args : Args) (draw : nat) : preserves world_wf (main today args draw).
Proof.
  destruct plots_wf as [H1 [H2 [H3 H4]]].
  unfold main, Plot, PrintOrSave, sys_exit.
  repeat first [ wf_step | assumption | apply FindTargetSpacecraft_wf | apply GetRandomSpacecraft_wf ].
Qed.

End Preservation.

(** ** Consequences *)

Lemma dict_wf_isSpacecraft (t : target) (d : pydict) :
  dict_wf t d -> get_bool d "isSpacecraft" = Ok (isSpacecraft t).
Proof.
  intros [Hs _]. apply get_bool_ok. rewrite Hs by (unfold static_keys; set_solver).
  apply target_dict_isSpacecraft.
Qed.


(** C6: in every well-formed world, the test [obj != targetSpacecraft] of
    [PlotTargets], which compares dicts by value, holds exactly when
    [obj] is not the very object [targetSpacecraft] designates: the loop
    draws the tracked spacecraft and skips every other one. *)
Theorem dict_ne_identity (w : world) (i j : nat) :
  world_wf w -> tracked w = Some j -> (i < length (heap w))%nat ->
  dict_ne w i = negb (Nat.eqb i j).
Proof.
  intros Hw Htr Hi. unfold dict_ne. rewrite Htr.
  assert (Hj : (j < length (heap w))%nat) by (rewrite world_wf_length by exact Hw; apply (proj2 Hw), Htr).
  destruct (lookup_lt_is_Some_2 _ _ Hi) as [d1 E1], (lookup_lt_is_Some_2 _ _ Hj) as [d2 E2].
  rewrite E1, E2. destruct (Nat.eqb_spec i j) as [->|Hne].
  - rewrite E1 in E2. injection E2 as ->. rewrite bool_decide_eq_true_2; reflexivity.
  - rewrite bool_decide_eq_false_2; [reflexivity|]. intros <-.
    destruct (world_wf_lookup w i d1 Hw E1) as [t1 [T1 D1%dict_wf_name]].
    destruct (world_wf_lookup w j d1 Hw E2) as [t2 [T2 D2%dict_wf_name]].
    rewrite D1 in D2. injection D2 as Hn. apply Hne.
    apply (NoDup_lookup _ _ _ (name t1) catalog_names_distinct); rewrite list_lookup_fmap;
      [rewrite T1 | rewrite T2, Hn]; reflexivity.
Qed.

(** The world after [--spacecraft Juno] was looked up: nothing fetched yet. *)
Definition witness_world : world := mkworld (target_dict <$> targets) (Some 17%nat) [].

Lemma dict_ne_identity_witness :
  world_wf witness_world /\ dict_ne witness_world 16 = true.
Proof.
  assert (Hw : world_wf witness_world).
  { split; [exact (proj1 init_world_wf) | intros j [= <-]; vm_compute; lia]. }
  split; [exact Hw|].
  rewrite (dict_ne_identity witness_world 16 17 Hw eq_refl ltac:(vm_compute; lia)). reflexivity.
Defined.
